(** * Real-estate agent: ledger queries and the intent-dispatch graph

    A shallow embedding of [tools/repository.py], [tools/calculations.py]
    and [graph/app_graph.py].

    Modelling conventions.
    - A pandas dataframe is the list of its rows, in index order; a boolean
      mask selection [df[mask]] is [List.filter].
    - The ledger has the columns the code names.  Text cells are
      [option string] ([None] is a missing value); [profit] holds no missing
      value after loading ([fillna(0.0)]).
    - Amounts are exact integers in the main development, which is used
      for what is added up and in which order of size, never for laws of
      exact addition; module [Float64] repeats [pnl] over binary64 amounts
      where rounding decides.
    - Python [str] is [string]; case mapping and whitespace follow the
      ASCII range. *)

From Stdlib Require Import ZArith QArith List String Ascii Bool Lia Sorted Permutation.
From Stdlib Require Import PrimFloat.
Import ListNotations.
Local Open Scope Z_scope.
Local Open Scope string_scope.


(** ** Python built-ins used by the code *)

Module Py.

(** [c.lower()] on one character. *)
Definition lower_ascii (c : ascii) : ascii :=
  let n := nat_of_ascii c in
  if ((65 <=? n) && (n <=? 90))%nat then ascii_of_nat (n + 32) else c.

(** [c.upper()] on one character. *)
Definition upper_ascii (c : ascii) : ascii :=
  let n := nat_of_ascii c in
  if ((97 <=? n) && (n <=? 122))%nat then ascii_of_nat (n - 32) else c.

(** [s.lower()]. *)
Fixpoint lower (s : string) : string :=
  match s with
  | EmptyString => EmptyString
  | String c s' => String (lower_ascii c) (lower s')
  end.

(** [c.isspace()]: tab, line feed, vertical tab, form feed, carriage
    return, the four separators 28..31 and the space. *)
Definition isspace (c : ascii) : bool :=
  let n := nat_of_ascii c in
  (((9 <=? n) && (n <=? 13)) || ((28 <=? n) && (n <=? 32)))%nat.

(** [s.lstrip()]. *)
Fixpoint lstrip (s : string) : string :=
  match s with
  | EmptyString => EmptyString
  | String c s' => if isspace c then lstrip s' else s
  end.

(** [s.rstrip()]: a character is dropped when it is white space and
    everything after it has been dropped. *)
Fixpoint rstrip (s : string) : string :=
  match s with
  | EmptyString => EmptyString
  | String c s' =>
      match rstrip s' with
      | EmptyString => if isspace c then EmptyString else String c EmptyString
      | t => String c t
      end
  end.

(** [s.strip()]. *)
Definition strip (s : string) : string := rstrip (lstrip s).

(** [q in s] on strings: [q] occurs in [s] as a contiguous substring. *)
Fixpoint contains (q s : string) : bool :=
  String.prefix q s ||
  match s with
  | EmptyString => false
  | String _ s' => contains q s'
  end.

(** [x in xs] on a list of strings. *)
Definition mem (x : string) (xs : list string) : bool :=
  existsb (String.eqb x) xs.

(** [xs[:n]]: a negative [n] counts from the end. *)
Definition slice_to {A} (n : Z) (xs : list A) : list A :=
  if (0 <=? n)%Z then firstn (Z.to_nat n) xs
  else firstn (Z.to_nat (Z.of_nat (List.length xs) + n)) xs.

(** [xs[:n]] where [n] may be [None], which keeps everything. *)
Definition slice_to_opt {A} (n : option Z) (xs : list A) : list A :=
  match n with
  | None => xs
  | Some k => slice_to k xs
  end.

(** [sep.join(xs)]. *)
Definition join (sep : string) (xs : list string) : string :=
  String.concat sep xs.

(** Truth value of a string: the empty string is false. *)
Definition truthy_str (s : string) : bool :=
  negb (String.eqb s EmptyString).

(** Insertion of [x] into a list sorted by [leb]. *)
Fixpoint insert_by {A} (leb : A -> A -> bool) (x : A) (xs : list A) : list A :=
  match xs with
  | [] => [x]
  | y :: ys => if leb x y then x :: xs else y :: insert_by leb x ys
  end.

(** A stable sort by [leb]: equal elements keep their order. *)
Definition sort_by {A} (leb : A -> A -> bool) (xs : list A) : list A :=
  fold_right (insert_by leb) [] xs.

(** First occurrences, in order ([drop_duplicates], [unique]). *)
Fixpoint unique_from {A} (eqb : A -> A -> bool) (seen : list A) (xs : list A)
  : list A :=
  match xs with
  | [] => []
  | x :: xs' =>
      if existsb (eqb x) seen then unique_from eqb seen xs'
      else x :: unique_from eqb (x :: seen) xs'
  end.

Definition unique {A} (eqb : A -> A -> bool) (xs : list A) : list A :=
  unique_from eqb [] xs.

End Py.

(** ** The ledger table *)

(** One row of the ledger after [Repo.from_parquet] has normalised it. *)
Record row : Type := {
  entity_name : option string;
  property_name : option string;
  tenant_name : option string;
  ledger_type : option string;
  ledger_group : option string;
  ledger_category : option string;
  ledger_description : option string;
  month : option string;
  quarter : option string;
  year : option string;
  profit : Z;
  year_int : option Z
}.

Definition DataFrame : Type := list row.

(** A cell as a group key: text, a number, or the missing value. *)
Inductive cell : Type :=
| CStr (s : string)
| CNum (z : Z)
| CNull.

Definition text_cell (c : option string) : cell :=
  match c with Some s => CStr s | None => CNull end.

Definition num_cell (c : option Z) : cell :=
  match c with Some z => CNum z | None => CNull end.

(** [df.columns]. *)
Definition columns : list string :=
  ["entity_name"; "property_name"; "tenant_name"; "ledger_type";
   "ledger_group"; "ledger_category"; "ledger_description";
   "month"; "quarter"; "year"; "profit"; "year_int"].

(** [df[c]] at one row; [None] when [c] is not a column. *)
Definition column (c : string) (r : row) : option cell :=
  if c =? "entity_name" then Some (text_cell (entity_name r))
  else if c =? "property_name" then Some (text_cell (property_name r))
  else if c =? "tenant_name" then Some (text_cell (tenant_name r))
  else if c =? "ledger_type" then Some (text_cell (ledger_type r))
  else if c =? "ledger_group" then Some (text_cell (ledger_group r))
  else if c =? "ledger_category" then Some (text_cell (ledger_category r))
  else if c =? "ledger_description" then Some (text_cell (ledger_description r))
  else if c =? "month" then Some (text_cell (month r))
  else if c =? "quarter" then Some (text_cell (quarter r))
  else if c =? "year" then Some (text_cell (year r))
  else if c =? "profit" then Some (CNum (profit r))
  else if c =? "year_int" then Some (num_cell (year_int r))
  else None.

(** [series == s] at one text cell: a missing value equals nothing. *)
Definition text_is (c : option string) (s : string) : bool :=
  match c with
  | Some x => x =? s
  | None => false
  end.

(** [series == n] at one numeric cell. *)
Definition num_is (c : option Z) (n : Z) : bool :=
  match c with
  | Some x => (x =? n)%Z
  | None => false
  end.

(** [series.fillna(empty string)] at one cell. *)
Definition fillna_empty (c : option string) : string :=
  match c with
  | Some x => x
  | None => EmptyString
  end.

(** [series.dropna()]. *)
Fixpoint dropna {A} (xs : list (option A)) : list A :=
  match xs with
  | [] => []
  | Some x :: xs' => x :: dropna xs'
  | None :: xs' => dropna xs'
  end.

(** [series.sum()], over exact amounts: the cells are added in row order
    and nothing is rounded.  See [Float64.series_sum] for binary64. *)
Definition series_sum (xs : list Z) : Z := fold_right Z.add 0 xs.

(** The dictionary with the keys [revenue], [expenses] and [net]. *)
Record PnL : Type := { revenue : Z; expenses : Z; net : Z }.

(** ** tools/repository.py *)

Module Repo.

Record t : Type := { df : DataFrame }.

Definition list_properties (self : t) : list string :=
  Py.sort_by String.leb
    (Py.unique String.eqb (dropna (map property_name (df self)))).

Definition search_property (self : t) (query : string) (limit : Z)
  : list string :=
  let q := Py.strip (Py.lower query) in
  let props := list_properties self in
  let hits := filter (fun p => Py.contains q (Py.lower p)) props in
  match hits with
  | [] => Py.slice_to limit props
  | _ => Py.slice_to limit hits
  end.

Definition filter_timeframe (self : t)
    (year_ : option Z) (quarter_ month_ : option string) : DataFrame :=
  let d := df self in
  let d := match year_ with
           | Some y => filter (fun r => num_is (year_int r) y) d
           | None => d
           end in
  let d := match quarter_ with
           | Some q => filter (fun r => text_is (quarter r) q) d
           | None => d
           end in
  let d := match month_ with
           | Some m => filter (fun r => text_is (month r) m) d
           | None => d
           end in
  d.

Definition filter_property (self : t) (d : DataFrame)
    (name : option string) : DataFrame :=
  match name with
  | None => d
  | Some n => filter (fun r => fillna_empty (property_name r) =? n) d
  end.

Definition filter_tenant (self : t) (d : DataFrame)
    (name : option string) : DataFrame :=
  match name with
  | None => d
  | Some n => filter (fun r => fillna_empty (tenant_name r) =? n) d
  end.


(** A missing or empty [property_name] argument is replaced by the empty
    string before the comparison ([property_name or empty string]). *)
Definition property_pnl (self : t) (name : option string)
    (year_ : option Z) (quarter_ month_ : option string) : PnL :=
  let d := filter_timeframe self year_ quarter_ month_ in
  let wanted := match name with
                | Some n => if Py.truthy_str n then n else EmptyString
                | None => EmptyString
                end in
  let d := filter (fun r => fillna_empty (property_name r) =? wanted) d in
  {| revenue := series_sum (map profit (filter (fun r => text_is (ledger_type r) "revenue") d));
     expenses := series_sum (map profit (filter (fun r => text_is (ledger_type r) "expenses") d));
     net := series_sum (map profit d) |}.

End Repo.

(** ** Grouping *)

Definition cell_eqb (a b : cell) : bool :=
  match a, b with
  | CStr x, CStr y => x =? y
  | CNum x, CNum y => (x =? y)%Z
  | CNull, CNull => true
  | _, _ => false
  end.

(** Order of group keys: text by code point, numbers by value, the missing
    value last.  A column never mixes text and numbers. *)
Definition cell_leb (a b : cell) : bool :=
  match a, b with
  | CStr x, CStr y => String.leb x y
  | CNum x, CNum y => (x <=? y)%Z
  | _, CNull => true
  | CNull, _ => false
  | CNum _, CStr _ => true
  | CStr _, CNum _ => false
  end.

(** [df.groupby(key, dropna=False)["profit"].sum()]: one entry per distinct
    key, keys in sorted order, each with the sum of its rows' profit. *)
Definition groupby_sum (key : row -> cell) (d : DataFrame) : list (cell * Z) :=
  map (fun k => (k, series_sum (map profit (filter (fun r => cell_eqb (key r) k) d))))
      (Py.sort_by cell_leb (Py.unique cell_eqb (map key d))).

(** [series.sort_values()]: ascending by value.  Groups with equal sums
    keep their key order here; pandas promises no order among them. *)
Definition sort_values (g : list (cell * Z)) : list (cell * Z) :=
  Py.sort_by (fun a b => (snd a <=? snd b)%Z) g.

(** [series.head(n)]. *)
Definition head {A} (n : option Z) (xs : list A) : list A := Py.slice_to_opt n xs.

(** ** Exceptions and the trace

    A computation yields its trace (the graph nodes entered and the calls
    made to [compare_properties], in order) and either the exception it
    raised or its value. *)

Inductive exn : Type :=
| ValueError (msg : string)
| IndexError (msg : string).

Inductive event : Type :=
| Enter_node (name : string)
| Call_compare_properties (property_names : list string).

Definition M (A : Type) : Type := (list event * (exn + A))%type.

Definition ret {A} (a : A) : M A := ([], inr a).

Definition raise {A} (e : exn) : M A := ([], inl e).

Definition bind {A B} (m : M A) (f : A -> M B) : M B :=
  match m with
  | (l, inl e) => (l, inl e)
  | (l, inr a) => let '(l', r) := f a in ((l ++ l')%list, r)
  end.

Definition emit (e : event) : M unit := ([e], inr tt).

Notation "x <- m ;; k" := (bind m (fun x => k))
  (at level 61, m at next level, right associativity).
Notation "m ;;; k" := (bind m (fun _ => k))
  (at level 61, right associativity).

(** The trace and the outcome of a computation. *)
Definition trace {A} (m : M A) : list event := fst m.
Definition outcome {A} (m : M A) : exn + A := snd m.

(** ** tools/calculations.py *)

Definition pnl (d : DataFrame) : PnL :=
  {| revenue := series_sum (map profit (filter (fun r => text_is (ledger_type r) "revenue") d));
     expenses := series_sum (map profit (filter (fun r => text_is (ledger_type r) "expenses") d));
     net := series_sum (map profit d) |}.

Definition property_summary (repo : Repo.t) (name : option string)
    (year_ : option Z) (quarter_ month_ : option string) : PnL :=
  let d := Repo.filter_timeframe repo year_ quarter_ month_ in
  let d := Repo.filter_property repo d name in
  pnl d.

(** One entry of a comparison: the property and its summary's three keys. *)
Record CompareEntry : Type := {
  ce_property : string;
  ce_revenue : Z;
  ce_expenses : Z;
  ce_net : Z
}.

Record Comparison : Type := {
  cmp_properties : list CompareEntry;
  cmp_count : nat
}.

Definition compare_properties (repo : Repo.t) (property_names : list string)
    (year_ : option Z) (quarter_ month_ : option string) : M Comparison :=
  emit (Call_compare_properties property_names) ;;;
  if (List.length property_names <? 2)%nat
  then raise (ValueError "At least 2 properties required for comparison")
  else
    let results :=
      map (fun prop_name =>
             let summary := property_summary repo (Some prop_name) year_ quarter_ month_ in
             {| ce_property := prop_name;
                ce_revenue := revenue summary;
                ce_expenses := expenses summary;
                ce_net := net summary |})
          property_names in
    ret {| cmp_properties := results; cmp_count := List.length results |}.

(** One entry of [top_expenses]: the grouping column with the rendered key,
    and the key [expense] with the group's sum. *)
Record ExpenseEntry : Type := {
  ee_column : string;
  ee_key : string;
  ee_expense : Z
}.

Section Calculations.

(** Python's [str] on a group key. *)
Variable py_str : cell -> string.

Definition top_expenses (repo : Repo.t) (name : option string)
    (year_ : option Z) (quarter_ month_ : option string)
    (group_by : string) (top_n : option Z) : list ExpenseEntry :=
  let d := Repo.filter_timeframe repo year_ quarter_ month_ in
  let d := Repo.filter_property repo d name in
  let d := filter (fun r => text_is (ledger_type r) "expenses") d in
  if negb (Py.mem group_by columns) then []
  else
    let key := fun r => match column group_by r with
                        | Some c => c
                        | None => CNull
                        end in
    let g := sort_values (groupby_sum key d) in
    map (fun kv => {| ee_column := group_by;
                      ee_key := py_str (fst kv);
                      ee_expense := snd kv |})
        (head top_n g).

End Calculations.

(** ** agents/schemas.py and the graph state *)

Record RouterOut : Type := {
  ro_intent : string;
  ro_confidence : Q
}.

Record SlotOut : Type := {
  so_properties : list string;
  so_tenants : list string;
  so_year : option Z;
  so_quarter : option string;
  so_month : option string;
  so_breakdown_by : option string;
  so_top_n : option Z
}.

(** The [slots] dictionary.  A field is [None] when the key is absent or
    holds [None]; [top_n] tells the two apart, as [calc] does. *)
Record Slots : Type := {
  s_properties : option (list string);
  s_tenants : option (list string);
  s_year : option Z;
  s_quarter : option string;
  s_month : option string;
  s_breakdown_by : option string;
  s_top_n : option (option Z)
}.

Definition empty_slots : Slots :=
  {| s_properties := None; s_tenants := None; s_year := None;
     s_quarter := None; s_month := None; s_breakdown_by := None;
     s_top_n := None |}.

(** [SlotOut.model_dump()]: every key is present. *)
Definition model_dump (o : SlotOut) : Slots :=
  {| s_properties := Some (so_properties o);
     s_tenants := Some (so_tenants o);
     s_year := so_year o;
     s_quarter := so_quarter o;
     s_month := so_month o;
     s_breakdown_by := so_breakdown_by o;
     s_top_n := Some (so_top_n o) |}.

Record Period : Type := {
  p_year : option Z;
  p_quarter : option string;
  p_month : option string
}.

(** The [result] dictionary: a field is [None] when its key is absent.
    The key [property] may be present and hold [None]. *)
Record Result : Type := {
  r_properties : option (list string);
  r_property : option (option string);
  r_period : option Period;
  r_pnl : option PnL;
  r_comparison : option Comparison;
  r_top_expenses : option (list ExpenseEntry);
  r_tenants : option (list string);
  r_ledger_groups : option (list string);
  r_total_records : option nat;
  r_tenant : option string;
  r_note : option string
}.

Definition empty_result : Result :=
  {| r_properties := None; r_property := None; r_period := None;
     r_pnl := None; r_comparison := None; r_top_expenses := None;
     r_tenants := None; r_ledger_groups := None; r_total_records := None;
     r_tenant := None; r_note := None |}.

Record Message : Type := {
  role : string;
  content : string
}.

Record AppState : Type := {
  messages : list Message;
  intent : option string;
  confidence : option Q;
  slots : option Slots;
  result : option Result;
  need_clarification : option bool;
  clarification_question : option string
}.

(** The dictionary a node returns: the keys it sets. *)
Record Update : Type := {
  u_messages : list Message;
  u_intent : option string;
  u_confidence : option Q;
  u_slots : option Slots;
  u_result : option Result;
  u_need_clarification : option bool;
  u_clarification_question : option string
}.

Definition no_update : Update :=
  {| u_messages := []; u_intent := None; u_confidence := None;
     u_slots := None; u_result := None; u_need_clarification := None;
     u_clarification_question := None |}.

Definition override {A} (new old : option A) : option A :=
  match new with
  | Some _ => new
  | None => old
  end.

(** How the graph folds a node's dictionary into the state: [messages] is
    extended ([add_messages]), every other key present is overwritten. *)
Definition apply_update (st : AppState) (u : Update) : AppState :=
  {| messages := (messages st ++ u_messages u)%list;
     intent := override (u_intent u) (intent st);
     confidence := override (u_confidence u) (confidence st);
     slots := override (u_slots u) (slots st);
     result := override (u_result u) (result st);
     need_clarification := override (u_need_clarification u) (need_clarification st);
     clarification_question :=
       override (u_clarification_question u) (clarification_question st) |}.

(** [state["messages"][-1]]. *)
Definition last_message (st : AppState) : M Message :=
  match rev (messages st) with
  | m :: _ => ret m
  | [] => raise (IndexError "list index out of range")
  end.

(** ** agents/router.py and agents/extractor.py

    The language model is a function of the user's text: the prompt around
    it is fixed. *)

Definition router_node (llm : string -> RouterOut) (state : AppState) : M Update :=
  last_msg <- last_message state ;;
  let user_text := content last_msg in
  let out := llm user_text in
  ret {| u_messages := []; u_intent := Some (ro_intent out);
         u_confidence := Some (ro_confidence out); u_slots := None;
         u_result := None; u_need_clarification := None;
         u_clarification_question := None |}.

Definition extractor_node (llm : string -> SlotOut) (state : AppState) : M Update :=
  last_msg <- last_message state ;;
  let user_text := content last_msg in
  let out := llm user_text in
  ret {| u_messages := []; u_intent := None; u_confidence := None;
         u_slots := Some (model_dump out); u_result := None;
         u_need_clarification := None; u_clarification_question := None |}.

(** ** The graph engine

    A graph is its nodes, its fixed edges and its conditional edges.  A run
    starts at [START], follows the edge out of the current node after
    running it, and finishes at [END] or at a node with no way out.  An
    exception in a node ends the run. *)

Definition START : string := "__start__".
Definition END_ : string := "__end__".

Record StateGraph : Type := {
  nodes : list (string * (AppState -> M Update));
  edges : list (string * string);
  conditional_edges : list (string * (AppState -> string))
}.

Fixpoint lookup {A} (k : string) (kvs : list (string * A)) : option A :=
  match kvs with
  | [] => None
  | (k', v) :: rest => if k =? k' then Some v else lookup k rest
  end.

Definition next_node (g : StateGraph) (current : string) (st : AppState)
  : option string :=
  match lookup current (edges g) with
  | Some target => Some target
  | None =>
      match lookup current (conditional_edges g) with
      | Some path => Some (path st)
      | None => None
      end
  end.

(** One run: [None] when the fuel ran out before the run finished. *)
Fixpoint run (fuel : nat) (g : StateGraph) (current : string) (st : AppState)
  : M (option AppState) :=
  match fuel with
  | O => ret None
  | S fuel' =>
      if current =? END_ then ret (Some st)
      else
        st' <- (if current =? START then ret st
                else match lookup current (nodes g) with
                     | Some f =>
                         emit (Enter_node current) ;;;
                         u <- f st ;;
                         ret (apply_update st u)
                     | None => raise (ValueError "unknown node")
                     end) ;;
        match next_node g current st' with
        | Some target => run fuel' g target st'
        | None => ret (Some st')
        end
  end.

Definition invoke (fuel : nat) (g : StateGraph) (st : AppState)
  : M (option AppState) :=
  run fuel g START st.

(** The nodes entered, in order. *)
Fixpoint visited (tr : list event) : list string :=
  match tr with
  | [] => []
  | Enter_node n :: tr' => n :: visited tr'
  | Call_compare_properties _ :: tr' => visited tr'
  end.

(** The argument lists [compare_properties] was called with, in order. *)
Fixpoint compare_calls (tr : list event) : list (list string) :=
  match tr with
  | [] => []
  | Enter_node _ :: tr' => compare_calls tr'
  | Call_compare_properties names :: tr' => names :: compare_calls tr'
  end.

(** ** graph/app_graph.py *)

Section BuildGraph.

Variable repo : Repo.t.
Variable router_llm : string -> RouterOut.
Variable extractor_llm : string -> SlotOut.

(** Python's [str] on a group key and [format(x, ',.2f')] on an amount. *)
Variable py_str : cell -> string.
Variable fmt_money : Z -> string.

Definition router (state : AppState) : M Update := router_node router_llm state.

Definition extractor (state : AppState) : M Update :=
  extractor_node extractor_llm state.

(** A dictionary asking for a clarification. *)
Definition ask (question : string) : Update :=
  {| u_messages := []; u_intent := None; u_confidence := None;
     u_slots := None; u_result := None;
     u_need_clarification := Some true;
     u_clarification_question := Some question |}.

(** A dictionary carrying a result. *)
Definition answer (res : Result) : Update :=
  {| u_messages := []; u_intent := None; u_confidence := None;
     u_slots := None; u_result := Some res;
     u_need_clarification := Some false;
     u_clarification_question := None |}.

(** The validation loop of [calc]: one step for one extracted name, on
    the pair of [validated_props] and [invalid_props]. *)
Definition validate_step (valid_properties : list string)
    (acc : list string * list string) (p : string)
  : list string * list string :=
  let '(validated_props, invalid_props) := acc in
  if Py.mem p valid_properties then ((validated_props ++ [p])%list, invalid_props)
  else
    match Repo.search_property repo p 1 with
    | m :: _ =>
        if Py.lower m =? Py.lower p
        then ((validated_props ++ [m])%list, invalid_props)
        else (validated_props, (invalid_props ++ [p])%list)
    | [] => (validated_props, (invalid_props ++ [p])%list)
    end.

Definition validate (valid_properties props : list string)
  : list string * list string :=
  fold_left (validate_step valid_properties) props ([], []).

Definition calc (state : AppState) : M Update :=
  let intent := match intent state with Some i => i | None => "fallback" end in
  let slots := match slots state with Some s => s | None => empty_slots end in
  let props := match s_properties slots with Some l => l | None => [] end in
  let tenants := match s_tenants slots with Some l => l | None => [] end in
  let year_ := s_year slots in
  let quarter_ := s_quarter slots in
  let month_ := s_month slots in
  let top_n := match s_top_n slots with Some v => v | None => Some 8 end in
  let breakdown_by :=
    match s_breakdown_by slots with
    | Some b => if Py.truthy_str b then b else "ledger_group"
    | None => "ledger_group"
    end in
  let period := {| p_year := year_; p_quarter := quarter_; p_month := month_ |} in
  let valid_properties := Repo.list_properties repo in
  let '(validated_props, invalid_props) := validate valid_properties props in
  match invalid_props with
  | bad :: _ =>
      ret (ask ("The property address '" ++ bad
                ++ "' does not exist in the dataset. Available properties: "
                ++ Py.join ", " (Py.slice_to 3 valid_properties) ++ "..."))
  | [] =>
      let props := validated_props in
      if (intent =? "asset_details") && (match props with [] => true | _ => false end)
      then ret (ask ("Which property would you like details for? For example: "
                     ++ Py.join ", " (Py.slice_to 3 valid_properties)))
      else if (intent =? "compare_properties") && (List.length props <? 2)%nat
      then ret (ask ("Please specify at least two properties to compare. For example: "
                     ++ Py.join ", " (Py.slice_to 2 valid_properties)))
      else if intent =? "list_properties"
      then ret (answer {| r_properties := Some valid_properties;
                          r_property := None; r_period := None; r_pnl := None;
                          r_comparison := None; r_top_expenses := None;
                          r_tenants := None; r_ledger_groups := None;
                          r_total_records := None; r_tenant := None;
                          r_note := None |})
      else if intent =? "property_summary"
      then
        let prop := hd_error props in
        let d := Repo.filter_timeframe repo year_ quarter_ month_ in
        let d := match prop with
                 | Some p => if Py.truthy_str p
                             then Repo.filter_property repo d (Some p) else d
                 | None => d
                 end in
        let pnl_data := pnl d in
        let shown := match prop with
                     | Some p => if Py.truthy_str p then p else "Entire Portfolio"
                     | None => "Entire Portfolio"
                     end in
        ret (answer {| r_properties := None;
                       r_property := Some (Some shown);
                       r_period := Some period; r_pnl := Some pnl_data;
                       r_comparison := None; r_top_expenses := None;
                       r_tenants := None; r_ledger_groups := None;
                       r_total_records := None; r_tenant := None;
                       r_note := None |})
      else if intent =? "compare_properties"
      then
        comparison <- compare_properties repo props year_ quarter_ month_ ;;
        ret (answer {| r_properties := None; r_property := None;
                       r_period := Some period; r_pnl := None;
                       r_comparison := Some comparison; r_top_expenses := None;
                       r_tenants := None; r_ledger_groups := None;
                       r_total_records := None; r_tenant := None;
                       r_note := None |})
      else if intent =? "top_expenses"
      then
        let prop := hd_error props in
        let expenses_ :=
          top_expenses py_str repo prop year_ quarter_ month_ breakdown_by top_n in
        ret (answer {| r_properties := None; r_property := Some prop;
                       r_period := Some period; r_pnl := None;
                       r_comparison := None; r_top_expenses := Some expenses_;
                       r_tenants := None; r_ledger_groups := None;
                       r_total_records := None; r_tenant := None;
                       r_note := None |})
      else if intent =? "asset_details"
      then
        match props with
        | [] => ret (ask ("Which property would you like details for? For example: "
                          ++ Py.join ", " (Py.slice_to 3 valid_properties)))
        | prop :: _ =>
            let d := Repo.filter_timeframe repo year_ quarter_ month_ in
            let d := Repo.filter_property repo d (Some prop) in
            let pnl_data := pnl d in
            let tenants :=
              Py.slice_to 5 (Py.unique String.eqb (dropna (map tenant_name d))) in
            let ledger_groups :=
              Py.unique String.eqb (dropna (map ledger_group d)) in
            ret (answer {| r_properties := None; r_property := Some (Some prop);
                           r_period := Some period; r_pnl := Some pnl_data;
                           r_comparison := None; r_top_expenses := None;
                           r_tenants := Some tenants;
                           r_ledger_groups := Some ledger_groups;
                           r_total_records := Some (List.length d);
                           r_tenant := None; r_note := None |})
        end
      else if intent =? "tenant_summary"
      then
        match tenants with
        | [] => ret (ask "Which tenant do you want to analyze?")
        | tenant :: _ =>
            let d := Repo.filter_timeframe repo year_ quarter_ month_ in
            let d := Repo.filter_tenant repo d (Some tenant) in
            ret (answer {| r_properties := None; r_property := None;
                           r_period := Some period; r_pnl := Some (pnl d);
                           r_comparison := None; r_top_expenses := None;
                           r_tenants := None; r_ledger_groups := None;
                           r_total_records := None; r_tenant := Some tenant;
                           r_note := None |})
        end
      else
        ret (answer {| r_properties := None; r_property := None;
                       r_period := None; r_pnl := None;
                       r_comparison := None; r_top_expenses := None;
                       r_tenants := None; r_ledger_groups := None;
                       r_total_records := None; r_tenant := None;
                       r_note := Some "fallback" |})
  end.

(** A value inside an f-string: [None] prints as its name. *)
Definition fmt_opt (o : option string) : string :=
  match o with
  | Some s => s
  | None => "None"
  end.

(** [res.get("property", default)] inside an f-string. *)
Definition property_or (res : Result) (default : string) : string :=
  match r_property res with
  | Some v => fmt_opt v
  | None => default
  end.

Definition money (x : Z) : string := "$" ++ fmt_money x.

Definition respond (state : AppState) : M Update :=
  let intent := match intent state with Some i => i | None => "fallback" end in
  let res := match result state with Some r => r | None => empty_result end in
  let pnl_ := match r_pnl res with
              | Some p => p
              | None => {| revenue := 0; expenses := 0; net := 0 |}
              end in
  let text :=
    if intent =? "list_properties"
    then "Your portfolio contains the following properties: "
         ++ Py.join ", " (match r_properties res with Some l => l | None => [] end)
    else if intent =? "property_summary"
    then
      let prop_name := property_or res "Entire Portfolio" in
      if prop_name =? "Entire Portfolio"
      then "The total P&L for all your properties is " ++ money (net pnl_) ++ "."
      else "The P&L for " ++ prop_name ++ " is " ++ money (net pnl_)
           ++ " (Revenue: " ++ money (revenue pnl_)
           ++ ", Expenses: " ++ money (expenses pnl_) ++ ")."
    else if intent =? "compare_properties"
    then
      let properties := match r_comparison res with
                        | Some c => cmp_properties c
                        | None => []
                        end in
      let parts := map (fun p => "the asset at " ++ ce_property p
                                 ++ " has a Net P&L of " ++ money (ce_net p))
                       properties in
      match Py.join ", while " parts ++ "." with
      | String c rest => String (Py.upper_ascii c) rest
      | EmptyString => EmptyString
      end
    else if intent =? "asset_details"
    then "Details for the property at " ++ property_or res "N/A" ++ ": "
         ++ "Net P&L - " ++ money (net pnl_) ++ ", "
         ++ "Total Revenue - " ++ money (revenue pnl_) ++ ", "
         ++ "Total Expenses - " ++ money (expenses pnl_) ++ "."
    else if intent =? "top_expenses"
    then
      let items := match r_top_expenses res with Some l => l | None => [] end in
      let lines := map (fun x => (if ee_column x =? "ledger_group"
                                  then ee_key x else "N/A")
                                 ++ ": " ++ money (ee_expense x))
                       items in
      "Top expenses for " ++ property_or res "your portfolio" ++ ": "
      ++ Py.join ", " lines ++ "."
    else if intent =? "tenant_summary"
    then "Tenant " ++ match r_tenant res with Some t => t | None => "N/A" end
         ++ " generated a Net P&L of " ++ money (net pnl_) ++ "."
    else "I can help you with property details, P&L calculations, comparisons, and expense analysis. Just ask!"
  in
  ret {| u_messages := [ {| role := "assistant"; content := text |} ];
         u_intent := None; u_confidence := None; u_slots := None;
         u_result := None; u_need_clarification := None;
         u_clarification_question := None |}.

Definition clarify (state : AppState) : M Update :=
  let q := match clarification_question state with
           | Some q => q
           | None => "Please clarify your request."
           end in
  ret {| u_messages := [ {| role := "assistant"; content := q |} ];
         u_intent := None; u_confidence := None; u_slots := None;
         u_result := None; u_need_clarification := None;
         u_clarification_question := None |}.

Definition after_calc (state : AppState) : string :=
  match need_clarification state with
  | Some true => "clarify"
  | _ => "respond"
  end.

Definition build_graph : StateGraph :=
  {| nodes := [ ("router", router); ("extractor", extractor); ("calc", calc);
                ("clarify", clarify); ("respond", respond) ];
     edges := [ (START, "router"); ("router", "extractor");
                ("extractor", "calc"); ("clarify", END_); ("respond", END_) ];
     conditional_edges := [ ("calc", after_calc) ] |}.

End BuildGraph.

(** ** Statements in the words of the specification *)

(** The sum of [profit] over exactly the rows that satisfy [P]. *)
Fixpoint profit_over (P : row -> Prop) (P_dec : forall r, {P r} + {~ P r})
    (d : DataFrame) : Z :=
  match d with
  | [] => 0
  | r :: d' => (if P_dec r then profit r else 0) + profit_over P P_dec d'
  end.

Definition has_ledger_type (s : string) (r : row) : Prop :=
  ledger_type r = Some s.

Definition has_ledger_type_dec (s : string) (r : row)
  : {has_ledger_type s r} + {~ has_ledger_type s r}.
Proof.
  unfold has_ledger_type.
  destruct (ledger_type r) as [x|].
  - destruct (string_dec x s) as [->|Hne]; [left; reflexivity|right; congruence].
  - right; discriminate.
Defined.

Definition any_row (r : row) : Prop := True.

Definition any_row_dec (r : row) : {any_row r} + {~ any_row r} := left I.

(** The equality constraints of a time frame: each one binds only when it
    is given. *)
Definition in_timeframe (year_ : option Z) (quarter_ month_ : option string)
    (r : row) : Prop :=
  (forall y, year_ = Some y -> year_int r = Some y) /\
  (forall q, quarter_ = Some q -> quarter r = Some q) /\
  (forall m, month_ = Some m -> month r = Some m).

Definition in_timeframeb (year_ : option Z) (quarter_ month_ : option string)
    (r : row) : bool :=
  match year_ with Some y => num_is (year_int r) y | None => true end
  && match quarter_ with Some q => text_is (quarter r) q | None => true end
  && match month_ with Some m => text_is (month r) m | None => true end.

(** A text cell equals [name] once a missing value counts as the empty
    string. *)
Definition names_as (c : option string) (name : string) : Prop :=
  match c with
  | Some x => x = name
  | None => name = EmptyString
  end.

(** A list of names in ascending order. *)
Definition sorted_strings : list string -> Prop :=
  StronglySorted (fun a b => String.leb a b = true).

(** The top hit of [search_property] for a name. *)
Definition top_hit (repo : Repo.t) (p : string) : option string :=
  hd_error (Repo.search_property repo p 1).

(** An extracted name is accepted when it is an existing property name, or
    when the top hit for it equals it once both are lower-cased. *)
Definition accepted (repo : Repo.t) (p : string) : Prop :=
  In p (Repo.list_properties repo)
  \/ exists m, top_hit repo p = Some m /\ Py.lower m = Py.lower p.

Definition accepted_dec (repo : Repo.t) (p : string)
  : {accepted repo p} + {~ accepted repo p}.
Proof.
  unfold accepted.
  destruct (in_dec string_dec p (Repo.list_properties repo)) as [Hin|Hout].
  - left. now left.
  - destruct (top_hit repo p) as [m|].
    + destruct (string_dec (Py.lower m) (Py.lower p)) as [E|Hne].
      * left. right. now exists m.
      * right. intros [H|(m' & [= <-] & H)]; contradiction.
    + right. intros [H|(m' & H & _)]; [contradiction|discriminate].
Defined.

Definition acceptedb (repo : Repo.t) (p : string) : bool :=
  if accepted_dec repo p then true else false.

(** The name as the dataset spells it: an existing name stands for itself,
    any other accepted name for its top hit. *)
Definition canonical (repo : Repo.t) (p : string) : string :=
  if in_dec string_dec p (Repo.list_properties repo) then p
  else match top_hit repo p with
       | Some m => m
       | None => p
       end.

(** The property names the extractor left in the state. *)
Definition extracted_properties (st : AppState) : list string :=
  match slots st with
  | Some s => match s_properties s with Some l => l | None => [] end
  | None => []
  end.

(** The state with its extracted property names replaced. *)
Definition with_properties (st : AppState) (l : list string) : AppState :=
  let s := match slots st with Some s => s | None => empty_slots end in
  {| messages := messages st; intent := intent st; confidence := confidence st;
     slots := Some {| s_properties := Some l; s_tenants := s_tenants s;
                      s_year := s_year s; s_quarter := s_quarter s;
                      s_month := s_month s; s_breakdown_by := s_breakdown_by s;
                      s_top_n := s_top_n s |};
     result := result st; need_clarification := need_clarification st;
     clarification_question := clarification_question st |}.

(** The question [calc] asks about a name that is not in the dataset. *)
Definition unknown_property_question (repo : Repo.t) (bad : string) : string :=
  "The property address '" ++ bad
  ++ "' does not exist in the dataset. Available properties: "
  ++ Py.join ", " (Py.slice_to 3 (Repo.list_properties repo)) ++ "...".

(** The intent [calc] and [respond] work with. *)
Definition state_intent (st : AppState) : string :=
  match intent st with
  | Some i => i
  | None => "fallback"
  end.

(** The tenant names the extractor left in the state. *)
Definition extracted_tenants (st : AppState) : list string :=
  match slots st with
  | Some s => match s_tenants s with Some l => l | None => [] end
  | None => []
  end.

(** The extracted names that validation rejects, and the accepted ones as
    the dataset spells them, both in their original order. *)
Definition rejected (repo : Repo.t) (st : AppState) : list string :=
  filter (fun p => negb (acceptedb repo p)) (extracted_properties st).

Definition validated (repo : Repo.t) (st : AppState) : list string :=
  map (canonical repo) (filter (acceptedb repo) (extracted_properties st)).

(** A node's dictionary asks for a clarification, or carries a result. *)
Definition asks (u : Update) : Prop :=
  u_need_clarification u = Some true
  /\ (exists q, u_clarification_question u = Some q)
  /\ u_result u = None.

Definition answers (u : Update) : Prop :=
  u_need_clarification u = Some false
  /\ (exists res, u_result u = Some res).

Definition state_of (i : string) (s : Slots) : AppState :=
  {| messages := []; intent := Some i; confidence := None; slots := Some s;
     result := None; need_clarification := None;
     clarification_question := None |}.

Definition slots_of (props tenants : list string) (top_n : option Z) : Slots :=
  {| s_properties := Some props; s_tenants := Some tenants; s_year := None;
     s_quarter := None; s_month := None; s_breakdown_by := None;
     s_top_n := Some top_n |}.

(** A rendering of group keys for the examples. *)
Definition show_key (c : cell) : string :=
  match c with
  | CStr s => s
  | CNum _ => "number"
  | CNull => "nan"
  end.

Definition cell_eq_dec (a b : cell) : {a = b} + {a <> b}.
Proof. decide equality; [apply string_dec|apply Z.eq_dec]. Defined.

(** The rows whose grouping column holds the key [k]. *)
Definition keyed (group_by : string) (k : cell) (r : row) : Prop :=
  column group_by r = Some k.

Definition keyed_dec (group_by : string) (k : cell) (r : row)
  : {keyed group_by k r} + {~ keyed group_by k r}.
Proof.
  unfold keyed. destruct (column group_by r) as [c|].
  - destruct (cell_eq_dec c k) as [->|Hne]; [left; reflexivity|right; congruence].
  - right; discriminate.
Defined.

(** The rows [top_expenses] groups: the time frame, then the property,
    then the ledger type [expenses]. *)
Definition expense_rows (repo : Repo.t) (name : option string)
    (year_ : option Z) (quarter_ month_ : option string) : DataFrame :=
  filter (fun r => text_is (ledger_type r) "expenses")
    (Repo.filter_property repo
       (Repo.filter_timeframe repo year_ quarter_ month_) name).

(** One entry of the answer of [top_expenses]. *)
Definition expense_entry (py_str : cell -> string) (group_by : string)
    (kv : cell * Z) : ExpenseEntry :=
  {| ee_column := group_by; ee_key := py_str (fst kv); ee_expense := snd kv |}.

(** ** Example ledgers *)


Definition mk_row (prop tenant ltype lgroup : option string) (amount : Z) : row :=
  {| entity_name := None; property_name := prop; tenant_name := tenant;
     ledger_type := ltype; ledger_group := lgroup; ledger_category := None;
     ledger_description := None; month := Some "2024-M01";
     quarter := Some "2024-Q1"; year := Some "2024"; profit := amount;
     year_int := Some 2024 |}.

Definition ledger_small : DataFrame :=
  [ mk_row (Some "Building 17") (Some "Tenant 1") (Some "revenue") (Some "rental_income") 100;
    mk_row (Some "Building 17") None (Some "expenses") (Some "general_expenses") (-30);
    mk_row (Some "Building 180") (Some "Tenant 2") (Some "revenue") (Some "rental_income") 70;
    mk_row (Some "Building 180") None (Some "expenses") (Some "taxes") (-20);
    mk_row (Some "Building 9") None (Some "adjustment") None 5 ].

Definition repo_small : Repo.t := {| Repo.df := ledger_small |}.

(** The node after [calc] for the dictionary [calc] returned. *)
Definition branch_of (u : Update) : string :=
  match u_need_clarification u with
  | Some true => "clarify"
  | _ => "respond"
  end.

(** The state [calc] runs on: the router's and then the extractor's
    dictionary folded into the initial state. *)
Definition state_at_calc (router_llm : string -> RouterOut)
    (extractor_llm : string -> SlotOut) (st : AppState) (last_msg : Message)
  : AppState :=
  let routed := router_llm (content last_msg) in
  let extracted := extractor_llm (content last_msg) in
  {| messages := messages st;
     intent := Some (ro_intent routed);
     confidence := Some (ro_confidence routed);
     slots := Some (model_dump extracted);
     result := result st;
     need_clarification := need_clarification st;
     clarification_question := clarification_question st |}.

(** Language models for the examples. *)
Definition llm_route (i : string) (user_text : string) : RouterOut :=
  {| ro_intent := i; ro_confidence := 1%Q |}.

Definition llm_slots (props : list string) (user_text : string) : SlotOut :=
  {| so_properties := props; so_tenants := []; so_year := None;
     so_quarter := None; so_month := None; so_breakdown_by := None;
     so_top_n := Some 8 |}.

Definition show_amount (x : Z) : string := "0.00".

Definition initial_state (msgs : list Message) : AppState :=
  {| messages := msgs; intent := None; confidence := None; slots := None;
     result := None; need_clarification := None;
     clarification_question := None |}.

Definition graph_small (i : string) (props : list string) : StateGraph :=
  build_graph repo_small (llm_route i) (llm_slots props) show_key show_amount.

(** ** Further code of the repository *)

(** [_norm] of [tools/repository.py]: a text cell is trimmed, and a cell
    that is missing or blank becomes the missing value. *)
Definition _norm (s : option string) : option string :=
  match s with
  | None => None
  | Some s =>
      let s := Py.strip s in
      if Py.truthy_str s then Some s else None
  end.




(** The dictionary with zero in every field. *)
Definition pnl_zero : PnL := {| revenue := 0; expenses := 0; net := 0 |}.

(** The figures of one entry of a comparison. *)
Definition entry_pnl (e : CompareEntry) : PnL :=
  {| revenue := ce_revenue e; expenses := ce_expenses e; net := ce_net e |}.

(** The line [respond] prints for one expense entry whose grouping column
    is not [ledger_group]. *)
Definition unlabelled_line (fmt_money : Z -> string) (x : ExpenseEntry) : string :=
  "N/A: " ++ money fmt_money (ee_expense x).

(** The message a node appends to the conversation. *)
Definition assistant_says (text : string) : Message :=
  {| role := "assistant"; content := text |}.

(** A text that does not start with white space. *)
Definition no_leading_space (s : string) : Prop :=
  match s with
  | EmptyString => True
  | String c _ => Py.isspace c = false
  end.

(** The slots [calc] works with: an absent dictionary is the empty one. *)
Definition state_slots (st : AppState) : Slots :=
  match slots st with
  | Some s => s
  | None => empty_slots
  end.

(** The intents [calc] has a branch for. *)
Definition known_intents : list string :=
  ["list_properties"; "property_summary"; "compare_properties";
   "asset_details"; "top_expenses"; "tenant_summary"].

Definition fallback_result : Result :=
  {| r_properties := None; r_property := None; r_period := None;
     r_pnl := None; r_comparison := None; r_top_expenses := None;
     r_tenants := None; r_ledger_groups := None; r_total_records := None;
     r_tenant := None; r_note := Some "fallback" |}.

(** The property the [property_summary] branch filters by: the first
    validated name when it is not empty. *)
Definition selected_property (repo : Repo.t) (st : AppState) : option string :=
  match hd_error (validated repo st) with
  | Some p => if Py.truthy_str p then Some p else None
  | None => None
  end.

(** The rows of one property within the time frame of the slots. *)
Definition property_rows (repo : Repo.t) (st : AppState) (p : string) : DataFrame :=
  Repo.filter_property repo
    (Repo.filter_timeframe repo (s_year (state_slots st))
       (s_quarter (state_slots st)) (s_month (state_slots st)))
    (Some p).

(** A state after [calc] answered a top-expenses question grouped by
    tenant. *)
Definition result_by_tenant : Result :=
  {| r_properties := None; r_property := Some (Some "Building 17");
     r_period := None; r_pnl := None; r_comparison := None;
     r_top_expenses :=
       Some (top_expenses show_key repo_small (Some "Building 17")
               None None None "tenant_name" (Some 8));
     r_tenants := None; r_ledger_groups := None;
     r_total_records := None; r_tenant := None; r_note := None |}.

Definition state_by_tenant : AppState :=
  {| messages := []; intent := Some "top_expenses"; confidence := None;
     slots := None; result := Some result_by_tenant;
     need_clarification := Some false; clarification_question := None |}.

(** The grouping column and the entry count [calc] passes to
    [top_expenses]: [ledger_group] when the slot is absent or empty, and 8
    when the key [top_n] is absent. *)
Definition state_breakdown_by (st : AppState) : string :=
  match s_breakdown_by (state_slots st) with
  | Some b => if Py.truthy_str b then b else "ledger_group"
  | None => "ledger_group"
  end.

Definition state_top_n (st : AppState) : option Z :=
  match s_top_n (state_slots st) with
  | Some v => v
  | None => Some 8
  end.

(** ** Binary64 amounts

    [pnl] of [tools/calculations.py] once more, over the binary64 numbers
    the [profit] column holds; a column sum adds the cells one after the
    other in row order. *)

Module Float64.

Record row : Type := {
  ledger_type : option string;
  profit : float
}.

Record PnL : Type := { revenue : float; expenses : float; net : float }.

Definition series_sum (xs : list float) : float :=
  fold_left PrimFloat.add xs 0%float.

Definition pnl (d : list row) : PnL :=
  {| revenue := series_sum (map profit (filter (fun r => text_is (ledger_type r) "revenue") d));
     expenses := series_sum (map profit (filter (fun r => text_is (ledger_type r) "expenses") d));
     net := series_sum (map profit d) |}.


End Float64.


(** * Properties *)

(** ** Sums and masks *)

Lemma text_is_true (c : option string) (s : string) :
  text_is c s = true <-> c = Some s.
Proof.
  destruct c as [x|]; simpl.
  - rewrite String.eqb_eq. split; congruence.
  - split; discriminate.
Qed.

Lemma num_is_true (c : option Z) (n : Z) :
  num_is c n = true <-> c = Some n.
Proof.
  destruct c as [x|]; simpl.
  - rewrite Z.eqb_eq. split; congruence.
  - split; discriminate.
Qed.

Lemma fillna_empty_eqb (c : option string) (name : string) :
  (fillna_empty c =? name) = true <-> names_as c name.
Proof.
  unfold fillna_empty, names_as.
  destruct c as [x|]; rewrite String.eqb_eq; split; congruence.
Qed.

Lemma series_sum_cons (x : Z) (xs : list Z) :
  series_sum (x :: xs) = x + series_sum xs.
Proof. reflexivity. Qed.

Lemma masked_sum (P : row -> Prop) (P_dec : forall r, {P r} + {~ P r})
    (f : row -> bool) (d : DataFrame) :
  (forall r, f r = true <-> P r) ->
  series_sum (map profit (filter f d)) = profit_over P P_dec d.
Proof.
  intros Hf. induction d as [|r d IH]; [reflexivity|].
  cbn [filter profit_over].
  destruct (P_dec r) as [Hp|Hn], (f r) eqn:E.
  - cbn [map]. now rewrite series_sum_cons, IH.
  - apply Hf in Hp. congruence.
  - apply Hf in E. contradiction.
  - exact IH.
Qed.

Lemma whole_sum (d : DataFrame) :
  series_sum (map profit d) = profit_over any_row any_row_dec d.
Proof.
  induction d as [|r d IH]; [reflexivity|].
  cbn [map profit_over any_row_dec]. now rewrite series_sum_cons, IH.
Qed.

(** C3: the three fields of [pnl] are the sum of [profit] over the revenue
    rows, over the expenses rows, and over all rows. *)
Theorem pnl_fields (d : DataFrame) :
  revenue (pnl d)
    = profit_over (has_ledger_type "revenue") (has_ledger_type_dec "revenue") d
  /\ expenses (pnl d)
    = profit_over (has_ledger_type "expenses") (has_ledger_type_dec "expenses") d
  /\ net (pnl d) = profit_over any_row any_row_dec d.
Proof.
  unfold pnl; simpl. repeat split.
  - apply masked_sum. intros r. apply text_is_true.
  - apply masked_sum. intros r. apply text_is_true.
  - apply whole_sum.
Qed.



(** ** Filters *)

Lemma filter_filter {A} (f g : A -> bool) (l : list A) :
  filter g (filter f l) = filter (fun x => f x && g x) l.
Proof.
  induction l as [|x l IH]; [reflexivity|].
  cbn [filter]. destruct (f x); cbn [filter andb]; [|exact IH].
  destruct (g x); now rewrite IH.
Qed.

Lemma filter_all {A} (l : list A) : filter (fun _ => true) l = l.
Proof. induction l as [|x l IH]; [reflexivity|]. cbn [filter]. now rewrite IH. Qed.

Lemma in_timeframeb_true (year_ : option Z) (quarter_ month_ : option string)
    (r : row) :
  in_timeframeb year_ quarter_ month_ r = true
  <-> in_timeframe year_ quarter_ month_ r.
Proof.
  unfold in_timeframeb, in_timeframe.
  rewrite !andb_true_iff.
  destruct year_ as [y|], quarter_ as [q|], month_ as [m|];
    rewrite ?num_is_true, ?text_is_true;
    (split;
     [ intros [[Hy Hq] Hm]; repeat split; intros ? [= <-]; assumption
     | intros (Hy & Hq & Hm); repeat split; auto ]).
Qed.

Lemma filter_timeframe_mask (self : Repo.t) (year_ : option Z)
    (quarter_ month_ : option string) :
  Repo.filter_timeframe self year_ quarter_ month_
  = filter (in_timeframeb year_ quarter_ month_) (Repo.df self).
Proof.
  unfold Repo.filter_timeframe, in_timeframeb.
  destruct year_ as [y|], quarter_ as [q|], month_ as [m|];
    rewrite ?filter_filter; cbn [andb];
    try (apply filter_ext; intros r;
         rewrite ?andb_assoc, ?andb_true_r; reflexivity).
  symmetry. apply filter_all.
Qed.

Lemma filter_timeframe_In (self : Repo.t) (year_ : option Z)
    (quarter_ month_ : option string) (r : row) :
  In r (Repo.filter_timeframe self year_ quarter_ month_)
  <-> In r (Repo.df self) /\ in_timeframe year_ quarter_ month_ r.
Proof.
  rewrite filter_timeframe_mask, filter_In, in_timeframeb_true. reflexivity.
Qed.

Lemma filter_property_In (self : Repo.t) (d : DataFrame) (name : string) (r : row) :
  In r (Repo.filter_property self d (Some name))
  <-> In r d /\ names_as (property_name r) name.
Proof.
  unfold Repo.filter_property. rewrite filter_In, fillna_empty_eqb. reflexivity.
Qed.

Lemma filter_tenant_In (self : Repo.t) (d : DataFrame) (name : string) (r : row) :
  In r (Repo.filter_tenant self d (Some name))
  <-> In r d /\ names_as (tenant_name r) name.
Proof.
  unfold Repo.filter_tenant. rewrite filter_In, fillna_empty_eqb. reflexivity.
Qed.

(** C5: [filter_timeframe] keeps exactly the rows that meet every given
    equality constraint (all rows when none is given); [filter_property]
    and [filter_tenant] keep exactly the rows whose name, a missing one
    counting as the empty string, equals the given one, and return the
    table unchanged for [None]. *)
Theorem filters_keep_exactly (self : Repo.t) (d : DataFrame) :
  (forall year_ quarter_ month_,
      Repo.filter_timeframe self year_ quarter_ month_
      = filter (in_timeframeb year_ quarter_ month_) (Repo.df self)
      /\ (forall r, in_timeframeb year_ quarter_ month_ r = true
                    <-> in_timeframe year_ quarter_ month_ r)
      /\ (forall r, In r (Repo.filter_timeframe self year_ quarter_ month_)
                    <-> In r (Repo.df self) /\ in_timeframe year_ quarter_ month_ r))
  /\ Repo.filter_timeframe self None None None = Repo.df self
  /\ (forall name,
         Repo.filter_property self d (Some name)
         = filter (fun r => fillna_empty (property_name r) =? name) d
         /\ (forall r, In r (Repo.filter_property self d (Some name))
                       <-> In r d /\ names_as (property_name r) name))
  /\ Repo.filter_property self d None = d
  /\ (forall name,
         Repo.filter_tenant self d (Some name)
         = filter (fun r => fillna_empty (tenant_name r) =? name) d
         /\ (forall r, In r (Repo.filter_tenant self d (Some name))
                       <-> In r d /\ names_as (tenant_name r) name))
  /\ Repo.filter_tenant self d None = d.
Proof.
  split; [|split; [|split; [|split; [|split]]]].
  - intros year_ quarter_ month_. split; [|split].
    + apply filter_timeframe_mask.
    + intros r. apply in_timeframeb_true.
    + intros r. apply filter_timeframe_In.
  - reflexivity.
  - intros name. split; [reflexivity|]. intros r. apply filter_property_In.
  - reflexivity.
  - intros name. split; [reflexivity|]. intros r. apply filter_tenant_In.
  - reflexivity.
Qed.

(** ** The two profit-and-loss paths *)

Lemma truthy_str_false (s : string) :
  Py.truthy_str s = false -> s = EmptyString.
Proof.
  unfold Py.truthy_str. intros H. apply negb_false_iff in H.
  now apply String.eqb_eq in H.
Qed.

(** C4, on the code: for [None] the two paths differ on a ledger whose
    rows all name a property. *)
Lemma property_pnl_none_differs :
  Repo.property_pnl repo_small None None None None
  <> property_summary repo_small None None None None.
Proof. vm_compute. discriminate. Qed.

(** C4, amended: for every property name that is not [None], and every
    year, quarter and month, [Repo.property_pnl] and [property_summary]
    return the same dictionary; for [None], [Repo.property_pnl] answers for
    the rows without a property name and [property_summary] for all rows of
    the time frame. *)
Theorem property_pnl_refines_summary (self : Repo.t) (year_ : option Z)
    (quarter_ month_ : option string) :
  (forall name : string,
      Repo.property_pnl self (Some name) year_ quarter_ month_
      = property_summary self (Some name) year_ quarter_ month_)
  /\ Repo.property_pnl self None year_ quarter_ month_
     = property_summary self (Some EmptyString) year_ quarter_ month_
  /\ property_summary self None year_ quarter_ month_
     = pnl (Repo.filter_timeframe self year_ quarter_ month_).
Proof.
  split; [|split]; try reflexivity.
  intros name. unfold Repo.property_pnl, property_summary, pnl, Repo.filter_property.
  destruct (Py.truthy_str name) eqn:E; [reflexivity|].
  apply truthy_str_false in E. subst name. reflexivity.
Qed.

(** ** Sorting, first occurrences and slices *)

Section SortBy.

Variable A : Type.
Variable leb : A -> A -> bool.

Lemma insert_by_perm (x : A) (l : list A) :
  Permutation (Py.insert_by leb x l) (x :: l).
Proof.
  induction l as [|y l IH]; cbn [Py.insert_by]; [reflexivity|].
  destruct (leb x y); [reflexivity|].
  rewrite IH. apply perm_swap.
Qed.

Lemma sort_by_perm (l : list A) : Permutation (Py.sort_by leb l) l.
Proof.
  induction l as [|x l IH]; [reflexivity|].
  unfold Py.sort_by in *. cbn [fold_right].
  rewrite insert_by_perm. now constructor.
Qed.

Lemma sort_by_In (l : list A) (x : A) : In x (Py.sort_by leb l) <-> In x l.
Proof.
  split; apply Permutation_in; [|symmetry]; apply sort_by_perm.
Qed.

Lemma sort_by_length (l : list A) : List.length (Py.sort_by leb l) = List.length l.
Proof. apply Permutation_length, sort_by_perm. Qed.

Hypothesis leb_total : forall a b, leb a b = true \/ leb b a = true.

Let le (a b : A) : Prop := leb a b = true.

Lemma insert_by_sorted (x : A) (l : list A) :
  Sorted le l -> Sorted le (Py.insert_by leb x l).
Proof.
  induction 1 as [|y l Hs IH Hd]; cbn [Py.insert_by].
  - repeat constructor.
  - destruct (leb x y) eqn:E.
    + constructor; [now constructor|]. constructor. exact E.
    + constructor; [exact IH|].
      assert (Hyx : le y x) by (destruct (leb_total x y); congruence).
      destruct l as [|z l]; cbn [Py.insert_by].
      * now constructor.
      * destruct (leb x z); constructor; [exact Hyx|].
        now inversion Hd.
Qed.

Lemma sort_by_sorted (l : list A) : Sorted le (Py.sort_by leb l).
Proof.
  induction l as [|x l IH]; [constructor|].
  unfold Py.sort_by in *. cbn [fold_right]. now apply insert_by_sorted.
Qed.

End SortBy.

Section Unique.

Variable A : Type.
Variable eqb : A -> A -> bool.
Hypothesis eqb_eq : forall a b, eqb a b = true <-> a = b.

Lemma existsb_eqb (x : A) (l : list A) :
  existsb (eqb x) l = true <-> In x l.
Proof.
  rewrite existsb_exists. split.
  - intros (y & Hin & E). apply eqb_eq in E. now subst.
  - intros Hin. exists x. split; [assumption|]. now apply eqb_eq.
Qed.

Lemma unique_from_In (seen l : list A) (x : A) :
  In x (Py.unique_from eqb seen l) <-> In x l /\ ~ In x seen.
Proof.
  revert seen. induction l as [|y l IH]; intros seen; cbn [Py.unique_from].
  - simpl. tauto.
  - destruct (existsb (eqb y) seen) eqn:E.
    + apply existsb_eqb in E. rewrite IH. simpl.
      split; [tauto|]. intros [[->|Hin] Hn]; tauto.
    + assert (Hy : ~ In y seen).
      { intros Hin. apply existsb_eqb in Hin. congruence. }
      simpl. rewrite IH. simpl.
      split.
      * intros [->|[Hin Hn]]; tauto.
      * intros [[->|Hin] Hn]; [tauto|].
        destruct (eqb y x) eqn:Eyx.
        -- apply eqb_eq in Eyx. tauto.
        -- right. split; [assumption|]. intros [->|Hs]; [|tauto].
           assert (eqb x x = true) by now apply eqb_eq. congruence.
Qed.

Lemma unique_from_NoDup (seen l : list A) :
  NoDup (Py.unique_from eqb seen l).
Proof.
  revert seen. induction l as [|y l IH]; intros seen; cbn [Py.unique_from].
  - constructor.
  - destruct (existsb (eqb y) seen); [apply IH|].
    constructor; [|apply IH].
    rewrite unique_from_In. simpl. tauto.
Qed.

Lemma unique_In (l : list A) (x : A) : In x (Py.unique eqb l) <-> In x l.
Proof. unfold Py.unique. rewrite unique_from_In. simpl. tauto. Qed.

Lemma unique_NoDup (l : list A) : NoDup (Py.unique eqb l).
Proof. apply unique_from_NoDup. Qed.

End Unique.

Lemma dropna_In {A} (l : list (option A)) (x : A) :
  In x (dropna l) <-> In (Some x) l.
Proof.
  induction l as [|[y|] l IH]; cbn [dropna]; simpl.
  - tauto.
  - rewrite IH. split; intros [H|H]; auto; left; congruence.
  - rewrite IH. split; [tauto|]. intros [H|H]; [discriminate|assumption].
Qed.

Lemma slice_to_nonneg {A} (n : Z) (l : list A) :
  0 <= n -> Py.slice_to n l = firstn (Z.to_nat n) l.
Proof.
  intros Hn. unfold Py.slice_to.
  destruct (0 <=? n)%Z eqn:E; [reflexivity|]. apply Z.leb_gt in E. lia.
Qed.

Lemma slice_to_length {A} (n : Z) (l : list A) :
  0 <= n -> Z.of_nat (List.length (Py.slice_to n l)) <= n.
Proof.
  intros Hn. rewrite slice_to_nonneg by assumption.
  rewrite length_firstn. lia.
Qed.

Lemma firstn_incl {A} (k : nat) (l : list A) (x : A) :
  In x (firstn k l) -> In x l.
Proof.
  intros H. rewrite <- (firstn_skipn k l). apply in_or_app. now left.
Qed.

Lemma slice_to_incl {A} (n : Z) (l : list A) (x : A) :
  In x (Py.slice_to n l) -> In x l.
Proof.
  unfold Py.slice_to. destruct (0 <=? n)%Z; apply firstn_incl.
Qed.

(** ** Strings *)

Lemma string_leb_trans (a b c : string) :
  String.leb a b = true -> String.leb b c = true -> String.leb a c = true.
Proof.
  unfold String.leb. revert b c.
  induction a as [|x a IH]; intros [|y b] [|z c]; cbn [String.compare];
    try congruence.
  unfold Ascii.compare.
  destruct (N.compare_spec (N_of_ascii x) (N_of_ascii y)) as [Exy|Lxy|Gxy];
    destruct (N.compare_spec (N_of_ascii y) (N_of_ascii z)) as [Eyz|Lyz|Gyz];
    destruct (N.compare_spec (N_of_ascii x) (N_of_ascii z)) as [Exz|Lxz|Gxz];
    try congruence; try lia.
  apply IH.
Qed.

Lemma prefix_app (q s : string) :
  String.prefix q s = true <-> exists post, s = q ++ post.
Proof.
  revert s. induction q as [|a q IH]; intros s.
  - split; [intros _; now exists s|intros _; destruct s; reflexivity].
  - destruct s as [|b s]; cbn [String.prefix].
    + split; [discriminate|]. intros [post H]. discriminate.
    + destruct (ascii_dec a b) as [->|Hne].
      * rewrite IH. split; intros [post H]; exists post.
        -- cbn. now rewrite H.
        -- cbn in H. congruence.
      * split; [discriminate|]. intros [post H]. cbn in H. congruence.
Qed.

(** [q in s] holds exactly when [s] is some text, then [q], then some
    text. *)
Lemma contains_spec (q s : string) :
  Py.contains q s = true <-> exists pre post, s = pre ++ q ++ post.
Proof.
  induction s as [|c s IH]; cbn [Py.contains]; rewrite orb_true_iff.
  - split.
    + intros [H|H]; [|discriminate].
      apply prefix_app in H. destruct H as [post H].
      exists EmptyString, post. exact H.
    + intros (pre & post & H). left. apply prefix_app.
      destruct pre; [|discriminate]. now exists post.
  - rewrite IH. split.
    + intros [H|(pre & post & H)].
      * apply prefix_app in H. destruct H as [post H].
        exists EmptyString, post. exact H.
      * exists (String c pre), post. cbn. now rewrite H.
    + intros (pre & post & H). destruct pre as [|c' pre].
      * left. apply prefix_app. now exists post.
      * right. cbn in H. exists pre, post. congruence.
Qed.

Lemma isspace_lower (c : ascii) : Py.isspace (Py.lower_ascii c) = Py.isspace c.
Proof. destruct c as [[] [] [] [] [] [] [] []]; reflexivity. Qed.

Lemma lstrip_lower (s : string) : Py.lower (Py.lstrip s) = Py.lstrip (Py.lower s).
Proof.
  induction s as [|c s IH]; [reflexivity|].
  cbn [Py.lstrip Py.lower]. rewrite isspace_lower.
  destruct (Py.isspace c); [exact IH|reflexivity].
Qed.

Lemma rstrip_lower (s : string) : Py.lower (Py.rstrip s) = Py.rstrip (Py.lower s).
Proof.
  induction s as [|c s IH]; [reflexivity|].
  cbn [Py.rstrip Py.lower]. rewrite <- IH, isspace_lower.
  destruct (Py.rstrip s); cbn [Py.lower]; [|reflexivity].
  destruct (Py.isspace c); reflexivity.
Qed.

(** Trimming and lower-casing commute. *)
Lemma strip_lower (s : string) : Py.strip (Py.lower s) = Py.lower (Py.strip s).
Proof. unfold Py.strip. now rewrite <- lstrip_lower, rstrip_lower. Qed.

(** ** The property list *)

Lemma list_properties_In (self : Repo.t) (p : string) :
  In p (Repo.list_properties self)
  <-> exists r, In r (Repo.df self) /\ property_name r = Some p.
Proof.
  unfold Repo.list_properties.
  rewrite sort_by_In, (unique_In _ String.eqb String.eqb_eq), dropna_In, in_map_iff.
  split; intros (r & H1 & H2); exists r; tauto.
Qed.

Lemma list_properties_NoDup (self : Repo.t) : NoDup (Repo.list_properties self).
Proof.
  unfold Repo.list_properties.
  eapply Permutation_NoDup; [symmetry; apply sort_by_perm|].
  apply (unique_NoDup _ String.eqb String.eqb_eq).
Qed.

Lemma list_properties_sorted (self : Repo.t) :
  sorted_strings (Repo.list_properties self).
Proof.
  apply Sorted_StronglySorted.
  - intros a b c. apply string_leb_trans.
  - apply sort_by_sorted. apply String.leb_total.
Qed.

Lemma mem_In (x : string) (l : list string) : Py.mem x l = true <-> In x l.
Proof. apply (existsb_eqb _ String.eqb String.eqb_eq). Qed.

Lemma StronglySorted_filter {A} (R : A -> A -> Prop) (f : A -> bool) (l : list A) :
  StronglySorted R l -> StronglySorted R (filter f l).
Proof.
  induction 1 as [|x l Hs IH Hall]; cbn [filter]; [constructor|].
  destruct (f x); [|exact IH].
  constructor; [exact IH|].
  rewrite Forall_forall in *. intros y Hy. apply filter_In in Hy. apply Hall, Hy.
Qed.

(** ** [search_property] *)

(** C9, on the code: with a negative limit the slice drops names from the
    end, so two names come back for the limit [-1]. *)
Lemma search_property_negative_limit :
  Repo.search_property repo_small "tower" (-1) = ["Building 17"; "Building 180"]
  /\ ~ (Z.of_nat (List.length (Repo.search_property repo_small "tower" (-1))) <= -1).
Proof. split; [reflexivity|]. vm_compute. intros H. apply H. reflexivity. Qed.

(** C9, amended: for every query and every limit that is not negative,
    [search_property] returns at most [limit] names; the hits are the
    property names that contain the trimmed, lower-cased query when
    lower-cased themselves, in the sorted order of the property list; with
    at least one hit the answer is the first [limit] hits, and with none it
    is the first [limit] names of the sorted property list. *)
Theorem search_property_spec (self : Repo.t) (query : string) (limit : Z) :
  0 <= limit ->
  let props := Repo.list_properties self in
  let q := Py.lower (Py.strip query) in
  let hits := filter (fun p => Py.contains q (Py.lower p)) props in
  Z.of_nat (List.length (Repo.search_property self query limit)) <= limit
  /\ (forall p, In p hits
                <-> In p props /\ exists pre post, Py.lower p = pre ++ q ++ post)
  /\ sorted_strings props
  /\ sorted_strings hits
  /\ (hits <> [] ->
      Repo.search_property self query limit = firstn (Z.to_nat limit) hits)
  /\ (hits = [] ->
      Repo.search_property self query limit = firstn (Z.to_nat limit) props).
Proof.
  intros Hlimit props q hits.
  assert (Hcode : Repo.search_property self query limit
                  = match hits with
                    | [] => Py.slice_to limit props
                    | _ => Py.slice_to limit hits
                    end).
  { unfold Repo.search_property, hits, q, props. now rewrite strip_lower. }
  split; [|split; [|split; [|split; [|split]]]].
  - rewrite Hcode. destruct hits; now apply slice_to_length.
  - intros p. unfold hits. rewrite filter_In, contains_spec. reflexivity.
  - apply list_properties_sorted.
  - apply StronglySorted_filter, list_properties_sorted.
  - intros Hne. rewrite Hcode. destruct hits; [congruence|].
    now apply slice_to_nonneg.
  - intros He. rewrite Hcode, He. now apply slice_to_nonneg.
Qed.

Lemma search_property_spec_witness :
  0 <= 1
  /\ Z.of_nat (List.length (Repo.search_property repo_small "  BUILDING 1 " 1)) <= 1.
Proof.
  split; [lia|].
  apply (search_property_spec repo_small "  BUILDING 1 " 1). lia.
Defined.

(** ** Validation of the extracted property names *)

Lemma top_hit_In (repo : Repo.t) (p m : string) :
  top_hit repo p = Some m -> In m (Repo.list_properties repo).
Proof.
  unfold top_hit, Repo.search_property. intros H.
  assert (Hin : In m (Repo.search_property repo p 1)).
  { unfold Repo.search_property.
    destruct (filter _ _) eqn:E in H |- *;
      destruct (Py.slice_to 1 _) eqn:E' in H |- *; try discriminate;
      injection H as ->; now left. }
  unfold Repo.search_property in Hin.
  destruct (filter _ _) eqn:E in Hin.
  - now apply slice_to_incl in Hin.
  - apply slice_to_incl in Hin. rewrite <- E in Hin.
    apply filter_In in Hin. tauto.
Qed.

Lemma canonical_In (repo : Repo.t) (p : string) :
  accepted repo p -> In (canonical repo p) (Repo.list_properties repo).
Proof.
  unfold canonical. intros Hacc.
  destruct (in_dec string_dec p (Repo.list_properties repo)) as [Hin|Hout];
    [assumption|].
  destruct Hacc as [Hin|(m & Hm & _)]; [contradiction|].
  rewrite Hm. eapply top_hit_In, Hm.
Qed.

Lemma canonical_lower (repo : Repo.t) (p : string) :
  accepted repo p -> Py.lower (canonical repo p) = Py.lower p.
Proof.
  unfold canonical. intros Hacc.
  destruct (in_dec string_dec p (Repo.list_properties repo)) as [Hin|Hout];
    [reflexivity|].
  destruct Hacc as [Hin|(m & Hm & E)]; [contradiction|].
  now rewrite Hm.
Qed.

Lemma acceptedb_true (repo : Repo.t) (p : string) :
  acceptedb repo p = true <-> accepted repo p.
Proof.
  unfold acceptedb. destruct (accepted_dec repo p); split; congruence.
Qed.

Lemma validate_step_spec (repo : Repo.t) (v i : list string) (p : string) :
  validate_step repo (Repo.list_properties repo) (v, i) p
  = if acceptedb repo p then ((v ++ [canonical repo p])%list, i)
    else (v, (i ++ [p])%list).
Proof.
  unfold validate_step, acceptedb, canonical.
  destruct (accepted_dec repo p) as [Hacc|Hrej];
    destruct (in_dec string_dec p (Repo.list_properties repo)) as [Hin|Hout].
  - apply mem_In in Hin. now rewrite Hin.
  - destruct Hacc as [Hin|(m & Hm & E)]; [contradiction|].
    assert (Hmem : Py.mem p (Repo.list_properties repo) = false).
    { destruct (Py.mem p _) eqn:Em; [|reflexivity]. apply mem_In in Em. contradiction. }
    rewrite Hmem, Hm. unfold top_hit in Hm.
    destruct (Repo.search_property repo p 1) as [|m' rest]; [discriminate|].
    injection Hm as ->. apply String.eqb_eq in E. now rewrite E.
  - exfalso. apply Hrej. now left.
  - assert (Hmem : Py.mem p (Repo.list_properties repo) = false).
    { destruct (Py.mem p _) eqn:Em; [|reflexivity]. apply mem_In in Em. contradiction. }
    rewrite Hmem.
    destruct (Repo.search_property repo p 1) as [|m rest] eqn:Es; [reflexivity|].
    destruct (Py.lower m =? Py.lower p) eqn:E; [|reflexivity].
    exfalso. apply Hrej. right. exists m. unfold top_hit. rewrite Es.
    split; [reflexivity|]. now apply String.eqb_eq.
Qed.

Lemma validate_from (repo : Repo.t) (l v i : list string) :
  fold_left (validate_step repo (Repo.list_properties repo)) l (v, i)
  = ((v ++ map (canonical repo) (filter (acceptedb repo) l))%list,
     (i ++ filter (fun p => negb (acceptedb repo p)) l)%list).
Proof.
  revert v i. induction l as [|p l IH]; intros v i; cbn [fold_left filter map].
  - now rewrite !app_nil_r.
  - rewrite validate_step_spec.
    destruct (acceptedb repo p); cbn [negb map]; rewrite IH, <- app_assoc; reflexivity.
Qed.

Lemma validate_spec (repo : Repo.t) (l : list string) :
  validate repo (Repo.list_properties repo) l
  = (map (canonical repo) (filter (acceptedb repo) l),
     filter (fun p => negb (acceptedb repo p)) l).
Proof. unfold validate. now rewrite validate_from. Qed.

Lemma no_rejected_all_accepted (repo : Repo.t) (l : list string) :
  filter (fun p => negb (acceptedb repo p)) l = [] ->
  filter (acceptedb repo) l = l /\ Forall (accepted repo) l.
Proof.
  induction l as [|p l IH]; cbn [filter]; [intros _; split; [reflexivity|constructor]|].
  destruct (acceptedb repo p) eqn:Eb; cbn [negb]; [|discriminate].
  intros H. destruct (IH H) as [E Hall]. split.
  - f_equal. exact E.
  - constructor; [|exact Hall]. now apply acceptedb_true.
Qed.

Lemma validate_valid (repo : Repo.t) (l : list string) :
  Forall (fun c => In c (Repo.list_properties repo)) l ->
  validate repo (Repo.list_properties repo) l = (l, []).
Proof.
  intros Hall. rewrite validate_spec.
  induction Hall as [|c l Hc Hall IH]; [reflexivity|].
  cbn [filter].
  assert (Eb : acceptedb repo c = true) by (apply acceptedb_true; now left).
  rewrite Eb. cbn [negb map].
  injection IH as E1 E2. rewrite E1, E2. f_equal. f_equal.
  unfold canonical.
  destruct (in_dec string_dec c (Repo.list_properties repo)); [reflexivity|contradiction].
Qed.

(** ** The calc node *)

Lemma compare_properties_short (repo : Repo.t) (names : list string)
    (year_ : option Z) (quarter_ month_ : option string) :
  (List.length names < 2)%nat ->
  compare_properties repo names year_ quarter_ month_
  = ([Call_compare_properties names],
     inl (ValueError "At least 2 properties required for comparison")).
Proof.
  intros H. unfold compare_properties.
  apply Nat.ltb_lt in H. rewrite H. reflexivity.
Qed.

Lemma compare_properties_ok (repo : Repo.t) (names : list string)
    (year_ : option Z) (quarter_ month_ : option string) :
  (2 <= List.length names)%nat ->
  exists c,
    compare_properties repo names year_ quarter_ month_
    = ([Call_compare_properties names], inr c)
    /\ map ce_property (cmp_properties c) = names
    /\ cmp_count c = List.length names.
Proof.
  intros H. unfold compare_properties.
  assert (E : (List.length names <? 2)%nat = false) by (apply Nat.ltb_ge; lia).
  rewrite E. eexists. split; [reflexivity|]. cbn [cmp_properties cmp_count].
  rewrite map_map, length_map. cbn [ce_property]. split; [apply map_id|reflexivity].
Qed.

Lemma calc_props (st : AppState) :
  match s_properties (match slots st with Some s => s | None => empty_slots end) with
  | Some l => l
  | None => []
  end = extracted_properties st.
Proof. unfold extracted_properties. destruct (slots st); reflexivity. Qed.

Lemma calc_tenants (st : AppState) :
  match s_tenants (match slots st with Some s => s | None => empty_slots end) with
  | Some l => l
  | None => []
  end = extracted_tenants st.
Proof. unfold extracted_tenants. destruct (slots st); reflexivity. Qed.

Lemma ask_asks (q : string) : asks (ask q).
Proof. unfold asks, ask; cbn. eauto. Qed.

Lemma answer_answers (res : Result) : answers (answer res).
Proof. unfold answers, answer; cbn. eauto. Qed.

Create HintDb calc.
#[local] Hint Resolve ask_asks answer_answers : calc.

Section CalcFacts.

Variable repo : Repo.t.
Variable py_str : cell -> string.

Lemma calc_rejected (st : AppState) (bad : string) (rest : list string) :
  rejected repo st = bad :: rest ->
  calc repo py_str st = ([], inr (ask (unknown_property_question repo bad))).
Proof.
  unfold rejected. intros H. unfold calc.
  rewrite calc_props, validate_spec, H. reflexivity.
Qed.

Lemma calc_compare_short (st : AppState) :
  rejected repo st = [] ->
  state_intent st = "compare_properties" ->
  (List.length (validated repo st) < 2)%nat ->
  exists q, calc repo py_str st = ([], inr (ask q)).
Proof.
  unfold rejected, validated, state_intent. intros Hr Hi Hl. unfold calc.
  rewrite calc_props, validate_spec, Hr, Hi.
  apply Nat.ltb_lt in Hl. rewrite Hl.
  cbn [String.eqb Ascii.eqb Bool.eqb andb]. eexists. reflexivity.
Qed.

Lemma calc_compare_call (st : AppState) :
  rejected repo st = [] ->
  state_intent st = "compare_properties" ->
  (2 <= List.length (validated repo st))%nat ->
  exists res,
    calc repo py_str st
    = ([Call_compare_properties (validated repo st)], inr (answer res)).
Proof.
  unfold rejected, validated, state_intent. intros Hr Hi Hl. unfold calc.
  rewrite calc_props, validate_spec, Hr, Hi.
  assert (E : (List.length (map (canonical repo)
                 (filter (acceptedb repo) (extracted_properties st))) <? 2)%nat = false)
    by (apply Nat.ltb_ge; lia).
  rewrite E. cbn [String.eqb Ascii.eqb Bool.eqb andb].
  match goal with
  | |- context [compare_properties repo ?n ?y ?q ?m] =>
      destruct (compare_properties_ok repo n y q m Hl) as (c & Hc & _)
  end.
  rewrite Hc. eexists. reflexivity.
Qed.

Lemma calc_other (st : AppState) :
  rejected repo st = [] ->
  state_intent st <> "compare_properties" ->
  exists u, calc repo py_str st = ([], inr u) /\ (asks u \/ answers u).
Proof.
  unfold rejected, state_intent. intros Hr Hi. unfold calc.
  rewrite calc_props, calc_tenants, validate_spec, Hr.
  apply String.eqb_neq in Hi. rewrite Hi. cbn [andb].
  set (i := match intent st with Some i => i | None => "fallback" end).
  set (v := map (canonical repo) (filter (acceptedb repo) (extracted_properties st))).
  destruct (i =? "asset_details") eqn:E1; cbn [andb].
  - destruct v as [|p v'].
    + eexists; split; [reflexivity|auto with calc].
    + destruct (i =? "list_properties");
        [eexists; split; [reflexivity|auto with calc]|].
      destruct (i =? "property_summary");
        [eexists; split; [reflexivity|auto with calc]|].
      destruct (i =? "top_expenses");
        [eexists; split; [reflexivity|auto with calc]|].
      eexists; split; [reflexivity|auto with calc].
  - destruct (i =? "list_properties");
      [eexists; split; [reflexivity|auto with calc]|].
    destruct (i =? "property_summary");
      [eexists; split; [reflexivity|auto with calc]|].
    destruct (i =? "top_expenses");
      [eexists; split; [reflexivity|auto with calc]|].
    destruct (i =? "tenant_summary");
      [|eexists; split; [reflexivity|auto with calc]].
    destruct (extracted_tenants st);
      eexists; split; try reflexivity; auto with calc.
Qed.

End CalcFacts.




Lemma calc_rejected_asks (repo : Repo.t) (py_str : cell -> string)
    (st : AppState) :
  rejected repo st <> [] ->
  exists q, calc repo py_str st = ([], inr (ask q)).
Proof.
  intros H. destruct (rejected repo st) as [|bad rest] eqn:E; [congruence|].
  eexists. eapply calc_rejected, E.
Qed.

Lemma calc_returns (repo : Repo.t) (py_str : cell -> string) (st : AppState) :
  exists tr u, calc repo py_str st = (tr, inr u) /\ (answers u \/ asks u).
Proof.
  destruct (rejected repo st) as [|bad rest] eqn:Er.
  - destruct (string_dec (state_intent st) "compare_properties") as [Hi|Hi].
    + destruct (Nat.lt_ge_cases (List.length (validated repo st)) 2) as [Hl|Hl].
      * destruct (calc_compare_short repo py_str st Er Hi Hl) as [q Hq].
        do 2 eexists. split; [exact Hq|auto with calc].
      * destruct (calc_compare_call repo py_str st Er Hi Hl) as [res Hres].
        do 2 eexists. split; [exact Hres|auto with calc].
    + destruct (calc_other repo py_str st Er Hi) as (u & Hu & Hshape).
      do 2 eexists. split; [exact Hu|tauto].
  - do 2 eexists. split; [eapply calc_rejected, Er|auto with calc].
Qed.




Lemma filter_head {A} (f : A -> bool) (l : list A) (x : A) (rest : list A) :
  filter f l = x :: rest ->
  exists pre post,
    l = (pre ++ x :: post)%list /\ Forall (fun y => f y = false) pre /\ f x = true.
Proof.
  induction l as [|y l IH]; cbn [filter]; [discriminate|].
  destruct (f y) eqn:E.
  - intros [= -> _]. exists [], l. repeat split; [constructor|exact E].
  - intros H. destruct (IH H) as (pre & post & -> & Hpre & Hx).
    exists (y :: pre), post. repeat split; [now constructor|exact Hx].
Qed.

Lemma validated_valid (repo : Repo.t) (st : AppState) :
  Forall (fun c => In c (Repo.list_properties repo)) (validated repo st).
Proof.
  unfold validated. apply Forall_forall. intros c Hc.
  apply in_map_iff in Hc. destruct Hc as (p & <- & Hp).
  apply filter_In in Hp. apply canonical_In, acceptedb_true, Hp.
Qed.

Lemma calc_with_validated (repo : Repo.t) (py_str : cell -> string)
    (st : AppState) :
  rejected repo st = [] ->
  calc repo py_str st = calc repo py_str (with_properties st (validated repo st)).
Proof.
  intros Hr. unfold calc at 2.
  cbn [with_properties slots intent s_properties s_tenants s_year s_quarter
       s_month s_breakdown_by s_top_n].
  rewrite (validate_valid repo _ (validated_valid repo st)).
  unfold calc. rewrite calc_props, validate_spec.
  fold (rejected repo st). fold (validated repo st). rewrite Hr.
  reflexivity.
Qed.

Lemma calc_unfold (repo : Repo.t) (py_str : cell -> string) (st : AppState) :
  rejected repo st = [] ->
  validate repo (Repo.list_properties repo)
    (match s_properties (state_slots st) with Some l => l | None => [] end)
  = (validated repo st, []).
Proof.
  intros Hr. unfold state_slots. rewrite calc_props, validate_spec.
  fold (rejected repo st). now rewrite Hr.
Qed.

Lemma calc_on_validated_compare (repo : Repo.t) (py_str : cell -> string)
    (st : AppState) :
  rejected repo st = [] ->
  state_intent st = "compare_properties" ->
  (2 <= List.length (validated repo st))%nat ->
  exists res c,
    calc repo py_str st
    = ([Call_compare_properties (validated repo st)], inr (answer res))
    /\ r_comparison res = Some c
    /\ map ce_property (cmp_properties c) = validated repo st
    /\ map entry_pnl (cmp_properties c)
       = map (fun p => property_summary repo (Some p) (s_year (state_slots st))
                         (s_quarter (state_slots st)) (s_month (state_slots st)))
             (validated repo st).
Proof.
  intros Hr Hi Hl. unfold calc. fold (state_slots st). fold (state_intent st).
  rewrite (calc_unfold repo py_str st Hr), Hi.
  assert (E : (List.length (validated repo st) <? 2)%nat = false)
    by (apply Nat.ltb_ge; lia).
  rewrite E. cbn [String.eqb Ascii.eqb Bool.eqb andb].
  unfold compare_properties. rewrite E.
  do 2 eexists. split; [reflexivity|]. split; [reflexivity|].
  cbn [cmp_properties]. rewrite !map_map. cbn [ce_property].
  split; [apply map_id|].
  apply map_ext. intros p. unfold entry_pnl.
  cbn [ce_revenue ce_expenses ce_net].
  now destruct (property_summary repo (Some p) _ _ _).
Qed.

Lemma calc_on_validated_summary (repo : Repo.t) (py_str : cell -> string)
    (st : AppState) :
  rejected repo st = [] ->
  state_intent st = "property_summary" ->
  exists res,
    calc repo py_str st = ([], inr (answer res))
    /\ r_pnl res
       = Some (property_summary repo (selected_property repo st)
                 (s_year (state_slots st)) (s_quarter (state_slots st))
                 (s_month (state_slots st)))
    /\ r_property res
       = Some (Some match selected_property repo st with
                    | Some p => p
                    | None => "Entire Portfolio"
                    end).
Proof.
  intros Hr Hi. unfold calc. fold (state_slots st). fold (state_intent st).
  rewrite (calc_unfold repo py_str st Hr), Hi.
  cbn [String.eqb Ascii.eqb Bool.eqb andb].
  unfold selected_property, property_summary.
  destruct (validated repo st) as [|p rest]; cbn [hd_error].
  - eexists. split; [reflexivity|]. split; reflexivity.
  - destruct (Py.truthy_str p); eexists; (split; [reflexivity|]);
      split; reflexivity.
Qed.

Lemma calc_on_validated_top (repo : Repo.t) (py_str : cell -> string)
    (st : AppState) :
  rejected repo st = [] ->
  state_intent st = "top_expenses" ->
  exists res,
    calc repo py_str st = ([], inr (answer res))
    /\ r_property res = Some (hd_error (validated repo st))
    /\ r_top_expenses res
       = Some (top_expenses py_str repo (hd_error (validated repo st))
                 (s_year (state_slots st)) (s_quarter (state_slots st))
                 (s_month (state_slots st)) (state_breakdown_by st)
                 (state_top_n st)).
Proof.
  intros Hr Hi. unfold calc. fold (state_slots st). fold (state_intent st).
  rewrite (calc_unfold repo py_str st Hr), Hi.
  cbn [String.eqb Ascii.eqb Bool.eqb andb].
  eexists. split; [reflexivity|]. split; reflexivity.
Qed.

Lemma calc_on_validated_asset (repo : Repo.t) (py_str : cell -> string)
    (st : AppState) (p : string) (rest : list string) :
  rejected repo st = [] ->
  state_intent st = "asset_details" ->
  validated repo st = p :: rest ->
  exists res,
    calc repo py_str st = ([], inr (answer res))
    /\ r_property res = Some (Some p)
    /\ r_pnl res
       = Some (property_summary repo (Some p) (s_year (state_slots st))
                 (s_quarter (state_slots st)) (s_month (state_slots st)))
    /\ r_total_records res = Some (List.length (property_rows repo st p)).
Proof.
  intros Hr Hi Hv. unfold calc. fold (state_slots st). fold (state_intent st).
  rewrite (calc_unfold repo py_str st Hr), Hi, Hv.
  cbn [String.eqb Ascii.eqb Bool.eqb andb].
  eexists. split; [reflexivity|]. repeat split.
Qed.

(** C8: an extracted name is accepted exactly when it is an existing
    property name or the top hit of [search_property] for it equals it
    letter case aside; when a name is rejected [calc] asks about the first
    rejected one, and otherwise it computes with the accepted names as the
    dataset spells them, in their original order: the comparison has one
    entry per validated name in order, and the summary, the top expenses
    and the asset details are those of the first validated name. *)
Theorem validation_spec (repo : Repo.t) (py_str : cell -> string) (st : AppState) :
  validate repo (Repo.list_properties repo) (extracted_properties st)
  = (validated repo st, rejected repo st)
  /\ (forall p, In p (rejected repo st)
                <-> In p (extracted_properties st) /\ ~ accepted repo p)
  /\ (forall bad rest,
         rejected repo st = bad :: rest ->
         (exists pre post,
             extracted_properties st = (pre ++ bad :: post)%list
             /\ Forall (accepted repo) pre /\ ~ accepted repo bad)
         /\ calc repo py_str st
            = ([], inr (ask (unknown_property_question repo bad))))
  /\ (rejected repo st = [] ->
      validated repo st = map (canonical repo) (extracted_properties st)
      /\ Forall (accepted repo) (extracted_properties st)
      /\ Forall (fun c => In c (Repo.list_properties repo)) (validated repo st)
      /\ (forall p, accepted repo p -> Py.lower (canonical repo p) = Py.lower p)
      /\ calc repo py_str st
         = calc repo py_str (with_properties st (validated repo st))
      /\ (state_intent st = "compare_properties" ->
          (2 <= List.length (validated repo st))%nat ->
          exists res c,
            calc repo py_str st
            = ([Call_compare_properties (validated repo st)], inr (answer res))
            /\ r_comparison res = Some c
            /\ map ce_property (cmp_properties c) = validated repo st
            /\ map entry_pnl (cmp_properties c)
               = map (fun p => property_summary repo (Some p)
                                 (s_year (state_slots st))
                                 (s_quarter (state_slots st))
                                 (s_month (state_slots st)))
                     (validated repo st))
      /\ (state_intent st = "property_summary" ->
          exists res,
            calc repo py_str st = ([], inr (answer res))
            /\ r_pnl res
               = Some (property_summary repo (selected_property repo st)
                         (s_year (state_slots st)) (s_quarter (state_slots st))
                         (s_month (state_slots st)))
            /\ r_property res
               = Some (Some match selected_property repo st with
                            | Some p => p
                            | None => "Entire Portfolio"
                            end))
      /\ (state_intent st = "top_expenses" ->
          exists res,
            calc repo py_str st = ([], inr (answer res))
            /\ r_property res = Some (hd_error (validated repo st))
            /\ r_top_expenses res
               = Some (top_expenses py_str repo (hd_error (validated repo st))
                         (s_year (state_slots st)) (s_quarter (state_slots st))
                         (s_month (state_slots st)) (state_breakdown_by st)
                         (state_top_n st)))
      /\ (state_intent st = "asset_details" ->
          forall p rest,
            validated repo st = p :: rest ->
            exists res,
              calc repo py_str st = ([], inr (answer res))
              /\ r_property res = Some (Some p)
              /\ r_pnl res
                 = Some (property_summary repo (Some p) (s_year (state_slots st))
                           (s_quarter (state_slots st)) (s_month (state_slots st)))
              /\ r_total_records res
                 = Some (List.length (property_rows repo st p)))).
Proof.
  split; [apply validate_spec|].
  split; [|split].
  - intros p. unfold rejected. rewrite filter_In, negb_true_iff.
    split; intros [Hin H]; (split; [exact Hin|]).
    + intros Ha. apply acceptedb_true in Ha. congruence.
    + destruct (acceptedb repo p) eqn:E; [|reflexivity].
      apply acceptedb_true in E. contradiction.
  - intros bad rest Hr. split; [|eapply calc_rejected, Hr].
    unfold rejected in Hr. apply filter_head in Hr.
    destruct Hr as (pre & post & Hl & Hpre & Hbad).
    exists pre, post. split; [exact Hl|]. split.
    + eapply Forall_impl; [|exact Hpre]. cbn. intros a Ha.
      apply negb_false_iff in Ha. now apply acceptedb_true.
    + apply negb_true_iff in Hbad. intros Ha.
      apply acceptedb_true in Ha. congruence.
  - intros Hr. destruct (no_rejected_all_accepted repo _ Hr) as [E Hall].
    split; [unfold validated; now rewrite E|].
    split; [exact Hall|].
    split; [apply validated_valid|].
    split; [apply canonical_lower|].
    split; [now apply calc_with_validated|].
    split; [intros Hi Hl; now apply calc_on_validated_compare|].
    split; [intros Hi; now apply calc_on_validated_summary|].
    split; [intros Hi; now apply calc_on_validated_top|].
    intros Hi p rest Hv. now apply (calc_on_validated_asset repo py_str st p rest).
Qed.

Lemma validation_spec_witness :
  exists res c,
    calc repo_small show_key
      (state_of "compare_properties"
         (slots_of ["building 17"; "Building 180"] [] None))
    = ([Call_compare_properties ["Building 17"; "Building 180"]], inr (answer res))
    /\ r_comparison res = Some c
    /\ map ce_property (cmp_properties c) = ["Building 17"; "Building 180"].
Proof.
  destruct (validation_spec repo_small show_key
              (state_of "compare_properties"
                 (slots_of ["building 17"; "Building 180"] [] None)))
    as (_ & _ & _ & H).
  destruct (H eq_refl) as (_ & _ & _ & _ & _ & Hcmp & _).
  destruct (Hcmp eq_refl (le_n 2)) as (res & c & H1 & H2 & H3 & _).
  exists res, c. repeat split; assumption.
Defined.

(** ** [compare_properties] and its guard *)

Lemma calc_compare_calls (repo : Repo.t) (py_str : cell -> string)
    (st : AppState) (names : list string) :
  In names (compare_calls (trace (calc repo py_str st))) ->
  state_intent st = "compare_properties"
  /\ rejected repo st = []
  /\ names = validated repo st
  /\ (2 <= List.length names)%nat.
Proof.
  destruct (rejected repo st) as [|bad rest] eqn:Er.
  - destruct (string_dec (state_intent st) "compare_properties") as [Hi|Hi].
    + destruct (Nat.lt_ge_cases (List.length (validated repo st)) 2) as [Hl|Hl].
      * destruct (calc_compare_short repo py_str st Er Hi Hl) as [q Hq].
        rewrite Hq. intros [].
      * destruct (calc_compare_call repo py_str st Er Hi Hl) as [res Hres].
        rewrite Hres. cbn. intros [<-|[]]. auto.
    + destruct (calc_other repo py_str st Er Hi) as (u & Hu & _).
      rewrite Hu. intros [].
  - rewrite (calc_rejected repo py_str st bad rest Er). intros [].
Qed.

(** C7: [compare_properties] raises [ValueError] exactly when it is given
    fewer than two names; [calc] calls it only for the intent
    [compare_properties] with at least two validated names, which are its
    arguments, and asks a question in every other case of that intent. *)
Theorem compare_properties_guarded :
  (forall repo names year_ quarter_ month_,
      (exists msg, outcome (compare_properties repo names year_ quarter_ month_)
                   = inl (ValueError msg))
      <-> (List.length names < 2)%nat)
  /\ (forall repo names year_ quarter_ month_,
         (2 <= List.length names)%nat ->
         exists c, outcome (compare_properties repo names year_ quarter_ month_)
                   = inr c)
  /\ (forall repo py_str st names,
         In names (compare_calls (trace (calc repo py_str st))) ->
         state_intent st = "compare_properties"
         /\ rejected repo st = []
         /\ names = validated repo st
         /\ (2 <= List.length names)%nat)
  /\ (forall repo py_str st,
         state_intent st = "compare_properties" ->
         rejected repo st <> [] \/ (List.length (validated repo st) < 2)%nat ->
         exists q, calc repo py_str st = ([], inr (ask q)))
  /\ (forall repo py_str st e, outcome (calc repo py_str st) <> inl e).
Proof.
  split; [|split; [|split; [|split]]].
  - intros repo names y q m. split.
    + intros [msg H].
      destruct (Nat.lt_ge_cases (List.length names) 2) as [Hl|Hl]; [exact Hl|].
      destruct (compare_properties_ok repo names y q m Hl) as (c & Hc & _).
      rewrite Hc in H. discriminate.
    + intros Hl. rewrite (compare_properties_short repo names y q m Hl).
      eexists. reflexivity.
  - intros repo names y q m Hl.
    destruct (compare_properties_ok repo names y q m Hl) as (c & Hc & _).
    rewrite Hc. eexists. reflexivity.
  - apply calc_compare_calls.
  - intros repo py_str st Hi [Hr|Hl].
    + now apply calc_rejected_asks.
    + destruct (rejected repo st) eqn:Er;
        [now apply calc_compare_short|apply calc_rejected_asks; congruence].
  - intros repo py_str st e.
    destruct (calc_returns repo py_str st) as (tr & u & Hu & _).
    rewrite Hu. discriminate.
Qed.

Lemma compare_properties_guarded_witness :
  exists c,
    outcome (compare_properties repo_small ["Building 17"; "Building 180"]
               None None None) = inr c.
Proof.
  apply compare_properties_guarded. cbn. lia.
Defined.

(** ** Grouping and [top_expenses] *)

Lemma cell_eqb_eq (a b : cell) : cell_eqb a b = true <-> a = b.
Proof.
  destruct a, b; cbn [cell_eqb];
    rewrite ?String.eqb_eq, ?Z.eqb_eq; split; congruence.
Qed.

Lemma column_known (c : string) (r : row) :
  In c columns -> exists k, column c r = Some k.
Proof.
  unfold columns. cbn [In].
  intros H. repeat (destruct H as [<-|H]; [eexists; reflexivity|]). contradiction.
Qed.

Lemma Sorted_firstn {A} (R : A -> A -> Prop) (k : nat) (l : list A) :
  Sorted R l -> Sorted R (firstn k l).
Proof.
  revert k. induction l as [|x l IH]; intros k Hs.
  - now rewrite firstn_nil.
  - destruct k as [|k]; [constructor|]. cbn [firstn].
    inversion Hs as [|? ? Hs' Hd]; subst.
    constructor; [now apply IH|].
    destruct l as [|y l]; [rewrite firstn_nil; constructor|].
    destruct k; cbn [firstn]; constructor. now inversion Hd.
Qed.

Lemma Sorted_map {A B} (R : A -> A -> Prop) (S : B -> B -> Prop) (f : A -> B)
    (l : list A) :
  (forall a b, R a b -> S (f a) (f b)) -> Sorted R l -> Sorted S (map f l).
Proof.
  intros Hf. induction 1 as [|x l Hs IH Hd]; cbn [map]; constructor.
  - exact IH.
  - destruct Hd; cbn [map]; constructor. now apply Hf.
Qed.

Section Grouping.

Variable key : row -> cell.
Variable d : DataFrame.

Lemma groupby_sum_keys :
  map fst (groupby_sum key d)
  = Py.sort_by cell_leb (Py.unique cell_eqb (map key d)).
Proof. unfold groupby_sum. rewrite map_map. cbn [fst]. apply map_id. Qed.

Lemma groupby_sum_NoDup : NoDup (map fst (groupby_sum key d)).
Proof.
  rewrite groupby_sum_keys.
  eapply Permutation_NoDup; [symmetry; apply sort_by_perm|].
  apply (unique_NoDup _ cell_eqb cell_eqb_eq).
Qed.

Lemma groupby_sum_key_In (k : cell) :
  In k (map fst (groupby_sum key d)) <-> exists r, In r d /\ key r = k.
Proof.
  rewrite groupby_sum_keys, sort_by_In, (unique_In _ cell_eqb cell_eqb_eq),
    in_map_iff.
  split; intros (r & H1 & H2); exists r; tauto.
Qed.

Lemma groupby_sum_value (k : cell) (v : Z) :
  In (k, v) (groupby_sum key d) ->
  v = series_sum (map profit (filter (fun r => cell_eqb (key r) k) d)).
Proof.
  unfold groupby_sum. rewrite in_map_iff. intros (k' & [= -> ->] & _).
  reflexivity.
Qed.

End Grouping.

Lemma sort_values_perm (g : list (cell * Z)) : Permutation (sort_values g) g.
Proof. apply sort_by_perm. Qed.

Lemma sort_values_sorted (g : list (cell * Z)) :
  Sorted (fun a b => snd a <= snd b) (sort_values g).
Proof.
  rewrite <- (map_id (sort_values g)).
  apply Sorted_map with (R := fun a b : cell * Z => (snd a <=? snd b)%Z = true).
  - intros a b H. now apply Z.leb_le.
  - apply sort_by_sorted. intros a b. rewrite !Z.leb_le. lia.
Qed.

Lemma expense_rows_In (repo : Repo.t) (name : option string) (year_ : option Z)
    (quarter_ month_ : option string) (r : row) :
  In r (expense_rows repo name year_ quarter_ month_)
  <-> In r (Repo.df repo)
      /\ in_timeframe year_ quarter_ month_ r
      /\ (forall n, name = Some n -> names_as (property_name r) n)
      /\ has_ledger_type "expenses" r.
Proof.
  unfold expense_rows, has_ledger_type. rewrite filter_In, text_is_true.
  destruct name as [n|].
  - rewrite filter_property_In, filter_timeframe_In.
    split.
    + intros [[[H1 H2] H3] H4].
      split; [exact H1|split; [exact H2|split; [|exact H4]]].
      intros n' [= <-]. exact H3.
    + intros (H1 & H2 & H3 & H4).
      split; [split; [split; [exact H1|exact H2]|now apply H3]|exact H4].
  - cbn [Repo.filter_property]. rewrite filter_timeframe_In.
    split.
    + intros [[H1 H2] H4].
      split; [exact H1|split; [exact H2|split; [discriminate|exact H4]]].
    + intros (H1 & H2 & _ & H4). tauto.
Qed.

Lemma top_expenses_unknown_column (py_str : cell -> string) (repo : Repo.t)
    (name : option string) (year_ : option Z) (quarter_ month_ : option string)
    (group_by : string) (top_n : option Z) :
  ~ In group_by columns ->
  top_expenses py_str repo name year_ quarter_ month_ group_by top_n = [].
Proof.
  intros H. unfold top_expenses.
  destruct (Py.mem group_by columns) eqn:E; [|reflexivity].
  apply mem_In in E. contradiction.
Qed.

Lemma top_expenses_groups (py_str : cell -> string) (repo : Repo.t)
    (name : option string) (year_ : option Z) (quarter_ month_ : option string)
    (group_by : string) (top_n : option Z) :
  In group_by columns ->
  exists groups,
    NoDup (map fst groups)
    /\ (forall k, In k (map fst groups)
                  <-> exists r, In r (expense_rows repo name year_ quarter_ month_)
                                /\ keyed group_by k r)
    /\ (forall k v, In (k, v) groups ->
                    v = profit_over (keyed group_by k) (keyed_dec group_by k)
                          (expense_rows repo name year_ quarter_ month_))
    /\ Sorted (fun a b => snd a <= snd b) groups
    /\ top_expenses py_str repo name year_ quarter_ month_ group_by top_n
       = map (expense_entry py_str group_by) (head top_n groups).
Proof.
  intros Hcol.
  set (d := expense_rows repo name year_ quarter_ month_).
  set (key := fun r => match column group_by r with Some c => c | None => CNull end).
  assert (Hkey : forall r k, key r = k <-> keyed group_by k r).
  { intros r k. unfold key, keyed.
    destruct (column_known group_by r Hcol) as [c ->]. split; congruence. }
  exists (sort_values (groupby_sum key d)).
  split; [|split; [|split; [|split]]].
  - eapply Permutation_NoDup; [|apply (groupby_sum_NoDup key d)].
    apply Permutation_map. symmetry. apply sort_values_perm.
  - intros k.
    assert (Hperm : In k (map fst (sort_values (groupby_sum key d)))
                    <-> In k (map fst (groupby_sum key d))).
    { split; apply Permutation_in, Permutation_map;
        [|symmetry]; apply sort_values_perm. }
    rewrite Hperm, groupby_sum_key_In.
    split; intros (r & H1 & H2); exists r; (split; [exact H1|]); now apply Hkey.
  - intros k v Hin.
    apply (Permutation_in _ (sort_values_perm _)) in Hin.
    apply groupby_sum_value in Hin. rewrite Hin.
    apply masked_sum. intros r. rewrite cell_eqb_eq. apply Hkey.
  - apply sort_values_sorted.
  - unfold top_expenses. apply mem_In in Hcol. rewrite Hcol. reflexivity.
Qed.

(** C6, on the code: [head] with a negative count drops groups from the
    end, so one entry comes back for [top_n = -1]. *)
Lemma top_expenses_negative_top_n :
  top_expenses show_key repo_small None None None None "ledger_group" (Some (-1))
  = [ {| ee_column := "ledger_group"; ee_key := "general_expenses";
         ee_expense := -30 |} ]
  /\ ~ (Z.of_nat (List.length
          (top_expenses show_key repo_small None None None None
             "ledger_group" (Some (-1)))) <= -1).
Proof. split; [reflexivity|]. vm_compute. intros H. apply H. reflexivity. Qed.

(** C6, amended: for every [top_n] that is not negative, [top_expenses]
    takes the rows of the time frame and the property whose ledger type is
    [expenses], groups them by the grouping column, sums [profit] per group,
    and returns the first [top_n] groups in ascending order of their sums,
    so at most [top_n] entries; for a grouping column that is not a column
    it returns the empty list. *)
Theorem top_expenses_spec (py_str : cell -> string) (repo : Repo.t)
    (name : option string) (year_ : option Z) (quarter_ month_ : option string)
    (group_by : string) (n : Z) :
  0 <= n ->
  let d := expense_rows repo name year_ quarter_ month_ in
  let out := top_expenses py_str repo name year_ quarter_ month_ group_by (Some n) in
  (forall r, In r d
             <-> In r (Repo.df repo)
                 /\ in_timeframe year_ quarter_ month_ r
                 /\ (forall p, name = Some p -> names_as (property_name r) p)
                 /\ has_ledger_type "expenses" r)
  /\ (~ In group_by columns -> out = [])
  /\ (In group_by columns ->
      exists groups,
        NoDup (map fst groups)
        /\ (forall k, In k (map fst groups)
                      <-> exists r, In r d /\ keyed group_by k r)
        /\ (forall k v, In (k, v) groups ->
                        v = profit_over (keyed group_by k) (keyed_dec group_by k) d)
        /\ Sorted (fun a b => snd a <= snd b) groups
        /\ out = map (expense_entry py_str group_by) (firstn (Z.to_nat n) groups))
  /\ Z.of_nat (List.length out) <= n
  /\ Sorted (fun a b => ee_expense a <= ee_expense b) out.
Proof.
  intros Hn d out.
  assert (Hgroups : In group_by columns ->
      exists groups,
        NoDup (map fst groups)
        /\ (forall k, In k (map fst groups)
                      <-> exists r, In r d /\ keyed group_by k r)
        /\ (forall k v, In (k, v) groups ->
                        v = profit_over (keyed group_by k) (keyed_dec group_by k) d)
        /\ Sorted (fun a b => snd a <= snd b) groups
        /\ out = map (expense_entry py_str group_by) (firstn (Z.to_nat n) groups)).
  { intros Hcol.
    destruct (top_expenses_groups py_str repo name year_ quarter_ month_
                group_by (Some n) Hcol) as (groups & H1 & H2 & H3 & H4 & H5).
    exists groups. repeat (split; [assumption|]).
    unfold out. rewrite H5. unfold head, Py.slice_to_opt.
    now rewrite slice_to_nonneg. }
  split; [intros r; apply expense_rows_In|].
  split; [apply top_expenses_unknown_column|].
  split; [exact Hgroups|].
  destruct (in_dec string_dec group_by columns) as [Hcol|Hcol].
  - destruct (Hgroups Hcol) as (groups & _ & _ & _ & Hs & ->). split.
    + rewrite length_map, length_firstn. lia.
    + apply Sorted_map with (R := fun a b : cell * Z => snd a <= snd b);
        [intros a b H; exact H|].
      now apply Sorted_firstn.
  - unfold out. rewrite top_expenses_unknown_column by assumption.
    split; [cbn; lia|constructor].
Qed.

Lemma top_expenses_spec_witness :
  0 <= 1
  /\ Z.of_nat (List.length
       (top_expenses show_key repo_small (Some "Building 17") (Some 2024) None None
          "ledger_group" (Some 1))) <= 1.
Proof.
  split; [lia|].
  apply (top_expenses_spec show_key repo_small (Some "Building 17") (Some 2024)
           None None "ledger_group" 1).
  lia.
Defined.

(** ** Runs of the graph *)

Lemma visited_app (a b : list event) :
  visited (a ++ b) = (visited a ++ visited b)%list.
Proof.
  induction a as [|[n|names] a IH]; cbn [visited app]; [reflexivity| |exact IH].
  now rewrite IH.
Qed.

Lemma calc_enters_no_node (repo : Repo.t) (py_str : cell -> string)
    (st : AppState) :
  visited (trace (calc repo py_str st)) = [].
Proof.
  destruct (rejected repo st) as [|bad rest] eqn:Er.
  - destruct (string_dec (state_intent st) "compare_properties") as [Hi|Hi].
    + destruct (Nat.lt_ge_cases (List.length (validated repo st)) 2) as [Hl|Hl].
      * destruct (calc_compare_short repo py_str st Er Hi Hl) as [q ->]. reflexivity.
      * destruct (calc_compare_call repo py_str st Er Hi Hl) as [res ->]. reflexivity.
    + destruct (calc_other repo py_str st Er Hi) as (u & -> & _). reflexivity.
  - rewrite (calc_rejected repo py_str st bad rest Er). reflexivity.
Qed.

Lemma last_message_some (st : AppState) :
  messages st <> [] ->
  exists m, last_message st = ret m /\ In m (messages st).
Proof.
  intros H. unfold last_message.
  destruct (rev (messages st)) as [|m l] eqn:E.
  - apply (f_equal (@rev Message)) in E. rewrite rev_involutive in E. contradiction.
  - exists m. split; [reflexivity|]. apply in_rev. rewrite E. now left.
Qed.

Lemma run_node (fuel : nat) (g : StateGraph) (name : string) (st : AppState)
    (f : AppState -> M Update) (tr : list event) (u : Update) (target : string) :
  (name =? END_) = false ->
  (name =? START) = false ->
  lookup name (nodes g) = Some f ->
  f st = (tr, inr u) ->
  next_node g name (apply_update st u) = Some target ->
  run (S fuel) g name st
  = ((Enter_node name :: tr ++ trace (run fuel g target (apply_update st u)))%list,
     outcome (run fuel g target (apply_update st u))).
Proof.
  intros He Hs Hf Hu Hn. cbn [run]. rewrite He, Hs, Hf, Hu.
  cbn [bind emit ret app]. rewrite Hn.
  destruct (run fuel g target (apply_update st u)) as [l r].
  cbn [trace outcome fst snd]. now rewrite app_nil_r.
Qed.

Lemma run_node_raises (fuel : nat) (g : StateGraph) (name : string)
    (st : AppState) (f : AppState -> M Update) (tr : list event) (e : exn) :
  (name =? END_) = false ->
  (name =? START) = false ->
  lookup name (nodes g) = Some f ->
  f st = (tr, inl e) ->
  run (S fuel) g name st = ((Enter_node name :: tr)%list, inl e).
Proof.
  intros He Hs Hf Hu. cbn [run]. rewrite He, Hs, Hf, Hu. reflexivity.
Qed.

Lemma bind_ret {A B} (a : A) (f : A -> M B) : bind (ret a) f = f a.
Proof. unfold bind, ret. destruct (f a) as [l r]. reflexivity. Qed.

Section GraphRun.

Variable repo : Repo.t.
Variable router_llm : string -> RouterOut.
Variable extractor_llm : string -> SlotOut.
Variable py_str : cell -> string.
Variable fmt_money : Z -> string.

Let g : StateGraph := build_graph repo router_llm extractor_llm py_str fmt_money.

Lemma run_at_end (fuel : nat) (st : AppState) :
  run (S fuel) g END_ st = ([], inr (Some st)).
Proof. reflexivity. Qed.

Lemma run_last_node (fuel : nat) (name : string) (st : AppState)
    (f : AppState -> M Update) (u : Update) :
  name = "clarify" \/ name = "respond" ->
  lookup name (nodes g) = Some f ->
  f st = ret u ->
  run (S (S fuel)) g name st
  = ([Enter_node name], inr (Some (apply_update st u))).
Proof.
  intros Hname Hf Hu.
  rewrite (run_node (S fuel) g name st f [] u END_);
    [rewrite run_at_end; reflexivity | | | | | ];
    try assumption; destruct Hname as [-> | ->]; reflexivity.
Qed.

Lemma run_from_calc (fuel : nat) (st : AppState) :
  exists tr u final,
    calc repo py_str st = (tr, inr u)
    /\ run (S (S (S fuel))) g "calc" st
       = ((Enter_node "calc" :: tr ++ [Enter_node (branch_of u)])%list,
          inr (Some final)).
Proof.
  destruct (calc_returns repo py_str st) as (tr & u & Hu & Hshape).
  exists tr, u.
  assert (Hnext : next_node g "calc" (apply_update st u) = Some (branch_of u)).
  { unfold next_node, after_calc, branch_of, apply_update, override.
    cbn [g build_graph edges conditional_edges lookup String.eqb Ascii.eqb
         Bool.eqb START END_ need_clarification].
    destruct Hshape as [[E _]|[E _]]; rewrite E; reflexivity. }
  unfold branch_of in *.
  destruct (u_need_clarification u) as [[]|] eqn:En.
  - eexists. split; [exact Hu|].
    rewrite (run_node _ g "calc" st (calc repo py_str) tr u "clarify");
      [ | reflexivity | reflexivity | reflexivity | exact Hu | exact Hnext ].
    erewrite run_last_node; [reflexivity|now left|reflexivity|reflexivity].
  - eexists. split; [exact Hu|].
    rewrite (run_node _ g "calc" st (calc repo py_str) tr u "respond");
      [ | reflexivity | reflexivity | reflexivity | exact Hu | exact Hnext ].
    erewrite run_last_node; [reflexivity|now right|reflexivity|reflexivity].
  - eexists. split; [exact Hu|].
    rewrite (run_node _ g "calc" st (calc repo py_str) tr u "respond");
      [ | reflexivity | reflexivity | reflexivity | exact Hu | exact Hnext ].
    erewrite run_last_node; [reflexivity|now right|reflexivity|reflexivity].
Qed.

End GraphRun.

Lemma apply_update_silent (st : AppState) (u : Update) :
  u_messages u = [] -> messages (apply_update st u) = messages st.
Proof. intros H. unfold apply_update. cbn [messages]. rewrite H. apply app_nil_r. Qed.

Lemma last_message_same (st st' : AppState) :
  messages st = messages st' -> last_message st = last_message st'.
Proof. unfold last_message. now intros ->. Qed.

Section GraphTheorems.

Variable repo : Repo.t.
Variable router_llm : string -> RouterOut.
Variable extractor_llm : string -> SlotOut.
Variable py_str : cell -> string.
Variable fmt_money : Z -> string.

Let g : StateGraph := build_graph repo router_llm extractor_llm py_str fmt_money.

Lemma run_from_start (fuel : nat) (st : AppState) :
  run (S fuel) g START st = run fuel g "router" st.
Proof.
  cbn [run]. change (START =? END_) with false. change (START =? START) with true.
  cbn iota. rewrite bind_ret. reflexivity.
Qed.

Lemma run_to_calc (fuel : nat) (st : AppState) (m : Message) :
  last_message st = ret m ->
  run (S (S fuel)) g "router" st
  = ((Enter_node "router" :: Enter_node "extractor"
        :: trace (run fuel g "calc" (state_at_calc router_llm extractor_llm st m)))%list,
     outcome (run fuel g "calc" (state_at_calc router_llm extractor_llm st m))).
Proof.
  intros Hlast.
  set (ur := {| u_messages := []; u_intent := Some (ro_intent (router_llm (content m)));
                u_confidence := Some (ro_confidence (router_llm (content m)));
                u_slots := None; u_result := None; u_need_clarification := None;
                u_clarification_question := None |}).
  set (ue := {| u_messages := []; u_intent := None; u_confidence := None;
                u_slots := Some (model_dump (extractor_llm (content m)));
                u_result := None; u_need_clarification := None;
                u_clarification_question := None |}).
  assert (Hr : router router_llm st = ([], inr ur)).
  { unfold router, router_node. rewrite Hlast, bind_ret. reflexivity. }
  assert (He : extractor extractor_llm (apply_update st ur) = ([], inr ue)).
  { unfold extractor, extractor_node.
    rewrite (last_message_same (apply_update st ur) st), Hlast, bind_ret;
      [reflexivity|]. now apply apply_update_silent. }
  assert (Hst : apply_update (apply_update st ur) ue
                = state_at_calc router_llm extractor_llm st m).
  { unfold apply_update, state_at_calc, ur, ue, override.
    cbn. now rewrite !app_nil_r. }
  rewrite (run_node _ g "router" st (router router_llm) [] ur "extractor");
    [ | reflexivity | reflexivity | reflexivity | exact Hr | reflexivity ].
  rewrite (run_node _ g "extractor" (apply_update st ur)
             (extractor extractor_llm) [] ue "calc");
    [ | reflexivity | reflexivity | reflexivity | exact He | reflexivity ].
  rewrite Hst. reflexivity.
Qed.

End GraphTheorems.

(** C2, on the code: a run started without any message raises in the
    router ([state["messages"][-1]]) and enters no other node. *)
Lemma run_without_message_stops :
  invoke 6 (graph_small "fallback" []) (initial_state [])
  = ([Enter_node "router"], inl (IndexError "list index out of range"))
  /\ visited (trace (invoke 6 (graph_small "fallback" []) (initial_state [])))
     <> ["router"; "extractor"; "calc"; "respond"]
  /\ visited (trace (invoke 6 (graph_small "fallback" []) (initial_state [])))
     <> ["router"; "extractor"; "calc"; "clarify"].
Proof. split; [reflexivity|]. split; vm_compute; discriminate. Qed.

(** C2, amended: the graph has the five nodes router, extractor, calc,
    clarify and respond and one conditional edge, out of calc.  Every run
    started on a state with at least one message enters router, extractor,
    calc and then exactly one of clarify and respond, and finishes; it
    enters clarify exactly when the dictionary [calc] returned sets
    [need_clarification], and respond otherwise; no node is entered twice
    and never both clarify and respond. *)
Theorem graph_run (repo : Repo.t) (router_llm : string -> RouterOut)
    (extractor_llm : string -> SlotOut) (py_str : cell -> string)
    (fmt_money : Z -> string) (st : AppState) (fuel : nat) :
  messages st <> [] ->
  (6 <= fuel)%nat ->
  let g := build_graph repo router_llm extractor_llm py_str fmt_money in
  map fst (nodes g) = ["router"; "extractor"; "calc"; "clarify"; "respond"]
  /\ map fst (conditional_edges g) = ["calc"]
  /\ exists last_msg tr_calc u tr final,
       last_message st = ret last_msg
       /\ calc repo py_str (state_at_calc router_llm extractor_llm st last_msg)
          = (tr_calc, inr u)
       /\ invoke fuel g st = (tr, inr (Some final))
       /\ visited tr = ["router"; "extractor"; "calc"; branch_of u]
       /\ (branch_of u = "clarify" <-> u_need_clarification u = Some true)
       /\ (branch_of u = "respond" <-> u_need_clarification u <> Some true)
       /\ NoDup (visited tr)
       /\ ~ (In "clarify" (visited tr) /\ In "respond" (visited tr)).
Proof.
  intros Hm Hfuel g. subst g.
  split; [reflexivity|]. split; [reflexivity|].
  destruct (last_message_some st Hm) as (m & Hlast & _).
  do 6 (destruct fuel as [|fuel]; [lia|]).
  destruct (run_from_calc repo router_llm extractor_llm py_str fmt_money fuel
              (state_at_calc router_llm extractor_llm st m))
    as (tr_calc & u & final & Hcalc & Hrun).
  exists m, tr_calc, u.
  exists (Enter_node "router" :: Enter_node "extractor" :: Enter_node "calc"
            :: tr_calc ++ [Enter_node (branch_of u)])%list, final.
  assert (Hnone : visited tr_calc = []).
  { pose proof (calc_enters_no_node repo py_str
                  (state_at_calc router_llm extractor_llm st m)) as H.
    now rewrite Hcalc in H. }
  assert (Hvisited :
            visited (Enter_node "router" :: Enter_node "extractor"
                       :: Enter_node "calc" :: tr_calc ++ [Enter_node (branch_of u)])
            = ["router"; "extractor"; "calc"; branch_of u]).
  { cbn [visited]. rewrite visited_app, Hnone. reflexivity. }
  split; [exact Hlast|]. split; [exact Hcalc|]. split.
  - unfold invoke. rewrite run_from_start.
    rewrite (run_to_calc repo router_llm extractor_llm py_str fmt_money _ st m Hlast).
    rewrite Hrun. reflexivity.
  - rewrite Hvisited. unfold branch_of.
    destruct (u_need_clarification u) as [[]|].
    + split; [reflexivity|]. split; [split; reflexivity|].
      split; [split; [discriminate|intros H; now elim H]|].
      split.
      * repeat constructor; cbn; intuition discriminate.
      * cbn. intuition discriminate.
    + split; [reflexivity|]. split; [split; discriminate|].
      split; [split; [discriminate|reflexivity]|].
      split.
      * repeat constructor; cbn; intuition discriminate.
      * cbn. intuition discriminate.
    + split; [reflexivity|]. split; [split; discriminate|].
      split; [split; [discriminate|reflexivity]|].
      split.
      * repeat constructor; cbn; intuition discriminate.
      * cbn. intuition discriminate.
Qed.

Lemma graph_run_witness :
  exists tr final,
    invoke 6 (graph_small "property_summary" ["building 17"])
      (initial_state [ {| role := "user"; content := "P&L for building 17" |} ])
    = (tr, inr (Some final))
    /\ visited tr = ["router"; "extractor"; "calc"; "respond"].
Proof.
  assert (H1 : messages (initial_state
                 [ {| role := "user"; content := "P&L for building 17" |} ]) <> [])
    by discriminate.
  assert (H2 : (6 <= 6)%nat) by lia.
  destruct (graph_run repo_small (llm_route "property_summary")
              (llm_slots ["building 17"]) show_key show_amount _ 6 H1 H2)
    as (_ & _ & m & trc & u & tr & final & Hl & Hc & Hi & Hv & _).
  exists tr, final. split; [exact Hi|].
  rewrite Hv. cbv in Hl. injection Hl as <-.
  vm_compute in Hc. injection Hc as _ <-. reflexivity.
Defined.

(** * Further properties *)

(** ** Normalisation of text cells *)

Lemma lstrip_no_leading_space (s : string) : no_leading_space (Py.lstrip s).
Proof.
  induction s as [|c s IH]; cbn [Py.lstrip]; [exact I|].
  destruct (Py.isspace c) eqn:E; [exact IH|exact E].
Qed.

Lemma lstrip_fixed (s : string) : no_leading_space s -> Py.lstrip s = s.
Proof.
  destruct s as [|c s]; cbn [no_leading_space Py.lstrip]; [reflexivity|].
  now intros ->.
Qed.

Lemma rstrip_no_leading_space (s : string) :
  no_leading_space s -> no_leading_space (Py.rstrip s).
Proof.
  destruct s as [|c s]; cbn [no_leading_space Py.rstrip]; [trivial|].
  intros E. destruct (Py.rstrip s); [rewrite E|]; exact E.
Qed.

Lemma rstrip_idempotent (s : string) : Py.rstrip (Py.rstrip s) = Py.rstrip s.
Proof.
  induction s as [|c s IH]; [reflexivity|].
  cbn [Py.rstrip]. destruct (Py.rstrip s) as [|c' t] eqn:E.
  - destruct (Py.isspace c) eqn:Ec; [reflexivity|].
    cbn [Py.rstrip]. now rewrite Ec.
  - cbn [Py.rstrip] in *. rewrite IH. reflexivity.
Qed.

Lemma strip_idempotent (s : string) : Py.strip (Py.strip s) = Py.strip s.
Proof.
  unfold Py.strip.
  rewrite (lstrip_fixed (Py.rstrip (Py.lstrip s))).
  - apply rstrip_idempotent.
  - apply rstrip_no_leading_space, lstrip_no_leading_space.
Qed.

Lemma truthy_str_true (s : string) : Py.truthy_str s = true <-> s <> EmptyString.
Proof.
  unfold Py.truthy_str. rewrite negb_true_iff. apply String.eqb_neq.
Qed.

(** [_norm] yields the missing value or a text that is not empty and has
    no white space left to trim; it maps the missing value and blank texts
    to the missing value; normalising twice changes nothing more. *)
Theorem norm_normalises (s : option string) :
  (forall t, _norm s = Some t -> t <> EmptyString /\ Py.strip t = t)
  /\ (_norm s = None
      <-> s = None \/ exists x, s = Some x /\ Py.strip x = EmptyString)
  /\ _norm (_norm s) = _norm s.
Proof.
  destruct s as [x|]; cbn [_norm].
  - destruct (Py.truthy_str (Py.strip x)) eqn:E.
    + apply truthy_str_true in E as Hne. split; [|split].
      * intros t [= <-]. split; [exact Hne|apply strip_idempotent].
      * split; [discriminate|].
        intros [H|(y & [= <-] & H)]; [discriminate|contradiction].
      * cbn [_norm]. rewrite strip_idempotent, E. reflexivity.
    + apply truthy_str_false in E. split; [|split].
      * discriminate.
      * split; [|reflexivity]. intros _. right. now exists x.
      * reflexivity.
  - split; [|split]; [discriminate| |reflexivity].
    split; [now left|reflexivity].
Qed.

(** ** The property list and the search *)

(** [list_properties] holds exactly the property names of the rows, a
    missing name aside, each one once, in ascending order. *)
Theorem list_properties_spec (self : Repo.t) :
  (forall p, In p (Repo.list_properties self)
             <-> exists r, In r (Repo.df self) /\ property_name r = Some p)
  /\ NoDup (Repo.list_properties self)
  /\ sorted_strings (Repo.list_properties self).
Proof.
  split; [intros p; apply list_properties_In|].
  split; [apply list_properties_NoDup|apply list_properties_sorted].
Qed.

Lemma StronglySorted_firstn {A} (R : A -> A -> Prop) (k : nat) (l : list A) :
  StronglySorted R l -> StronglySorted R (firstn k l).
Proof.
  revert k. induction l as [|x l IH]; intros k Hs.
  - rewrite firstn_nil. constructor.
  - destruct k as [|k]; [constructor|]. cbn [firstn].
    inversion Hs as [|? ? Hs' Hall]; subst.
    constructor; [now apply IH|].
    rewrite Forall_forall in *. intros y Hy. apply Hall. eapply firstn_incl, Hy.
Qed.

Lemma NoDup_firstn {A} (k : nat) (l : list A) : NoDup l -> NoDup (firstn k l).
Proof.
  revert k. induction l as [|x l IH]; intros k Hn.
  - rewrite firstn_nil. constructor.
  - destruct k as [|k]; [constructor|]. cbn [firstn].
    inversion Hn as [|? ? Hx Hn']; subst.
    constructor; [|now apply IH].
    intros Hin. apply Hx. eapply firstn_incl, Hin.
Qed.

Lemma NoDup_filter {A} (f : A -> bool) (l : list A) : NoDup l -> NoDup (filter f l).
Proof.
  induction 1 as [|x l Hx Hn IH]; cbn [filter]; [constructor|].
  destruct (f x); [|exact IH].
  constructor; [|exact IH]. intros Hin. apply filter_In in Hin. tauto.
Qed.

Lemma slice_to_firstn {A} (n : Z) (l : list A) :
  exists k, Py.slice_to n l = firstn k l.
Proof. unfold Py.slice_to. destruct (0 <=? n)%Z; eexists; reflexivity. Qed.

Lemma search_property_slice (self : Repo.t) (query : string) (limit : Z) :
  exists k l,
    Repo.search_property self query limit = firstn k l
    /\ NoDup l /\ sorted_strings l
    /\ (forall p, In p l -> In p (Repo.list_properties self))
    /\ (Repo.list_properties self <> [] -> l <> []).
Proof.
  unfold Repo.search_property.
  destruct (filter _ (Repo.list_properties self)) as [|h hits] eqn:E.
  - destruct (slice_to_firstn limit (Repo.list_properties self)) as [k Hk].
    exists k, (Repo.list_properties self).
    split; [exact Hk|]. split; [apply list_properties_NoDup|].
    split; [apply list_properties_sorted|]. split; auto.
  - destruct (slice_to_firstn limit (h :: hits)) as [k Hk].
    exists k, (h :: hits). split; [exact Hk|]. rewrite <- E.
    split; [apply NoDup_filter, list_properties_NoDup|].
    split; [apply StronglySorted_filter, list_properties_sorted|].
    split.
    + intros p Hp. apply filter_In in Hp. tauto.
    + intros _. rewrite E. discriminate.
Qed.

(** Whatever the query and the limit, [search_property] returns existing
    property names, without repetition and in ascending order; when the
    dataset has a property and the limit is at least one, the answer is
    never empty. *)
Theorem search_property_sound (self : Repo.t) (query : string) (limit : Z) :
  (forall p, In p (Repo.search_property self query limit)
             -> In p (Repo.list_properties self))
  /\ NoDup (Repo.search_property self query limit)
  /\ sorted_strings (Repo.search_property self query limit)
  /\ (1 <= limit -> Repo.list_properties self <> [] ->
      Repo.search_property self query limit <> []).
Proof.
  destruct (search_property_slice self query limit)
    as (k & l & Hs & Hn & Hsorted & Hin & Hne).
  split; [|split; [|split]].
  - rewrite Hs. intros p Hp. apply Hin. eapply firstn_incl, Hp.
  - rewrite Hs. now apply NoDup_firstn.
  - rewrite Hs. now apply StronglySorted_firstn.
  - intros Hlimit Hprops. unfold Repo.search_property.
    destruct (filter _ (Repo.list_properties self)) as [|h hits] eqn:E.
    + rewrite slice_to_nonneg by lia.
      destruct (Repo.list_properties self) as [|p props]; [congruence|].
      destruct (Z.to_nat limit) eqn:En; [lia|]. discriminate.
    + rewrite slice_to_nonneg by lia.
      destruct (Z.to_nat limit) eqn:En; [lia|]. discriminate.
Qed.

Lemma search_property_sound_witness :
  Repo.search_property repo_small "tower" 2 <> [].
Proof.
  apply (search_property_sound repo_small "tower" 2); [lia|].
  vm_compute. discriminate.
Defined.

Lemma lstrip_suffix (s : string) : exists pre, s = pre ++ Py.lstrip s.
Proof.
  induction s as [|c s [pre IH]]; [now exists EmptyString|].
  cbn [Py.lstrip]. destruct (Py.isspace c).
  - exists (String c pre). cbn. now rewrite <- IH.
  - now exists EmptyString.
Qed.

Lemma rstrip_prefix (s : string) : exists post, s = Py.rstrip s ++ post.
Proof.
  induction s as [|c s [post IH]]; [now exists EmptyString|].
  cbn [Py.rstrip]. destruct (Py.rstrip s) as [|c' t] eqn:E.
  - destruct (Py.isspace c).
    + now exists (String c s).
    + exists s. reflexivity.
  - exists post. cbn. cbn in IH. now rewrite <- IH.
Qed.

Lemma strip_substring (s : string) :
  exists pre post, s = pre ++ Py.strip s ++ post.
Proof.
  destruct (lstrip_suffix s) as [pre Hpre].
  destruct (rstrip_prefix (Py.lstrip s)) as [post Hpost].
  exists pre, post. unfold Py.strip. now rewrite <- Hpost.
Qed.

Lemma filter_length_le {A} (f : A -> bool) (l : list A) :
  (List.length (filter f l) <= List.length l)%nat.
Proof.
  induction l as [|x l IH]; cbn [filter List.length]; [lia|].
  destruct (f x); cbn [List.length]; lia.
Qed.

(** A search for an existing property name finds that name, once the
    limit is at least the number of properties. *)
Theorem search_property_finds_existing (self : Repo.t) (p : string) (limit : Z) :
  In p (Repo.list_properties self) ->
  Z.of_nat (List.length (Repo.list_properties self)) <= limit ->
  In p (Repo.search_property self p limit).
Proof.
  intros Hin Hlimit. unfold Repo.search_property.
  set (f := fun p' => Py.contains (Py.strip (Py.lower p)) (Py.lower p')).
  assert (Hp : In p (filter f (Repo.list_properties self))).
  { apply filter_In. split; [exact Hin|]. unfold f.
    apply contains_spec, strip_substring. }
  assert (Hlen : (List.length (filter f (Repo.list_properties self))
                  <= Z.to_nat limit)%nat).
  { pose proof (filter_length_le f (Repo.list_properties self)). lia. }
  destruct (filter f (Repo.list_properties self)) as [|h hits] eqn:E;
    [contradiction|].
  rewrite slice_to_nonneg by lia. now rewrite firstn_all2.
Qed.

Lemma search_property_finds_existing_witness :
  In "Building 17" (Repo.search_property repo_small "Building 17" 3).
Proof.
  apply (search_property_finds_existing repo_small "Building 17" 3).
  - vm_compute. auto.
  - vm_compute. discriminate.
Defined.

(** ** Truncation and the breakdown *)

(** A [top_n] of at least the number of groups truncates nothing:
    [top_expenses] then answers as it does for a null [top_n], with every
    group. *)
Theorem top_expenses_untruncated (py_str : cell -> string) (repo : Repo.t)
    (name : option string) (year_ : option Z) (quarter_ month_ : option string)
    (group_by : string) (n : Z) :
  Z.of_nat (List.length
              (top_expenses py_str repo name year_ quarter_ month_ group_by None))
  <= n ->
  top_expenses py_str repo name year_ quarter_ month_ group_by (Some n)
  = top_expenses py_str repo name year_ quarter_ month_ group_by None.
Proof.
  unfold top_expenses. destruct (negb (Py.mem group_by columns)); [reflexivity|].
  cbn [head Py.slice_to_opt]. rewrite length_map. intros Hn.
  rewrite slice_to_nonneg by lia. rewrite firstn_all2 by lia. reflexivity.
Qed.

Lemma top_expenses_untruncated_witness :
  top_expenses show_key repo_small None None None None "ledger_group" (Some 2)
  = top_expenses show_key repo_small None None None None "ledger_group" None.
Proof.
  apply top_expenses_untruncated. vm_compute. discriminate.
Defined.




(** ** Comparisons and unknown names *)

(** Given at least two names, [compare_properties] returns one entry per
    name, in the order given and with repetitions kept, the count of the
    names, and for each name the figures of [property_summary]. *)
Theorem compare_properties_entries (repo : Repo.t) (names : list string)
    (year_ : option Z) (quarter_ month_ : option string) :
  (2 <= List.length names)%nat ->
  exists c,
    outcome (compare_properties repo names year_ quarter_ month_) = inr c
    /\ map ce_property (cmp_properties c) = names
    /\ cmp_count c = List.length names
    /\ map entry_pnl (cmp_properties c)
       = map (fun p => property_summary repo (Some p) year_ quarter_ month_) names.
Proof.
  intros H. unfold compare_properties.
  assert (E : (List.length names <? 2)%nat = false) by (apply Nat.ltb_ge; lia).
  rewrite E. eexists. split; [reflexivity|].
  cbn [cmp_properties cmp_count]. rewrite !map_map, length_map.
  cbn [ce_property]. split; [apply map_id|]. split; [reflexivity|].
  apply map_ext. intros p. unfold entry_pnl.
  cbn [ce_revenue ce_expenses ce_net].
  now destruct (property_summary repo (Some p) year_ quarter_ month_).
Qed.

Lemma compare_properties_entries_witness :
  exists c,
    outcome (compare_properties repo_small ["Building 9"; "Building 9"]
               (Some 2024) None None) = inr c
    /\ map ce_property (cmp_properties c) = ["Building 9"; "Building 9"]
    /\ cmp_count c = 2%nat
    /\ map entry_pnl (cmp_properties c)
       = map (fun p => property_summary repo_small (Some p) (Some 2024) None None)
             ["Building 9"; "Building 9"].
Proof.
  apply (compare_properties_entries repo_small ["Building 9"; "Building 9"]).
  cbn. lia.
Defined.

Lemma filter_none {A} (f : A -> bool) (l : list A) :
  (forall x, In x l -> f x = false) -> filter f l = [].
Proof.
  induction l as [|x l IH]; intros H; [reflexivity|].
  cbn [filter]. rewrite (H x) by now left.
  apply IH. intros y Hy. apply H. now right.
Qed.

(** For a name that no row carries, [property_summary] and
    [Repo.property_pnl] answer with zero in every field rather than fail. *)
Theorem unknown_property_is_zero (repo : Repo.t) (p : string)
    (year_ : option Z) (quarter_ month_ : option string) :
  (forall r, In r (Repo.df repo) -> fillna_empty (property_name r) <> p) ->
  property_summary repo (Some p) year_ quarter_ month_ = pnl_zero
  /\ Repo.property_pnl repo (Some p) year_ quarter_ month_ = pnl_zero.
Proof.
  intros H.
  assert (E : filter (fun r => fillna_empty (property_name r) =? p)
                (Repo.filter_timeframe repo year_ quarter_ month_) = []).
  { apply filter_none. intros r Hr. apply String.eqb_neq, H.
    apply filter_timeframe_In in Hr. tauto. }
  split.
  - unfold property_summary, Repo.filter_property. now rewrite E.
  - unfold Repo.property_pnl.
    destruct (Py.truthy_str p) eqn:Et.
    + now rewrite E.
    + apply truthy_str_false in Et. subst p. now rewrite E.
Qed.

Lemma unknown_property_is_zero_witness :
  property_summary repo_small (Some "Tower 1") None None None = pnl_zero.
Proof.
  apply (unknown_property_is_zero repo_small "Tower 1" None None None).
  intros r Hr. vm_compute in Hr.
  repeat (destruct Hr as [<-|Hr]; [vm_compute; discriminate|]). contradiction.
Defined.

(** ** Validation once more *)

Lemma canonical_names_valid (repo : Repo.t) (l : list string) :
  Forall (fun c => In c (Repo.list_properties repo))
         (map (canonical repo) (filter (acceptedb repo) l)).
Proof.
  apply Forall_forall. intros c Hc.
  apply in_map_iff in Hc. destruct Hc as (p & <- & Hp).
  apply filter_In in Hp. apply canonical_In, acceptedb_true, Hp.
Qed.

(** Validation is idempotent: the names it accepts are existing property
    names, and validating them again accepts them all unchanged. *)
Theorem validate_idempotent (repo : Repo.t) (props : list string) :
  let accepted_names := fst (validate repo (Repo.list_properties repo) props) in
  Forall (fun c => In c (Repo.list_properties repo)) accepted_names
  /\ validate repo (Repo.list_properties repo) accepted_names
     = (accepted_names, []).
Proof.
  cbn zeta. rewrite validate_spec. cbn [fst].
  split; [apply canonical_names_valid|].
  apply validate_valid, canonical_names_valid.
Qed.

(** ** The router and the extractor *)

(** Both nodes raise [IndexError] exactly on an empty conversation;
    otherwise they read the last message only: the router sets the intent
    and the confidence, the extractor sets the slots with every key
    present, and neither sets another key. *)
Theorem language_nodes_read_last_message (router_llm : string -> RouterOut)
    (extractor_llm : string -> SlotOut) (st : AppState) :
  ((exists msg, outcome (router_node router_llm st) = inl (IndexError msg))
   <-> messages st = [])
  /\ ((exists msg, outcome (extractor_node extractor_llm st) = inl (IndexError msg))
      <-> messages st = [])
  /\ (forall earlier m,
         messages st = (earlier ++ [m])%list ->
         router_node router_llm st
         = ret {| u_messages := [];
                  u_intent := Some (ro_intent (router_llm (content m)));
                  u_confidence := Some (ro_confidence (router_llm (content m)));
                  u_slots := None; u_result := None;
                  u_need_clarification := None;
                  u_clarification_question := None |}
         /\ extractor_node extractor_llm st
            = ret {| u_messages := []; u_intent := None; u_confidence := None;
                     u_slots := Some (model_dump (extractor_llm (content m)));
                     u_result := None; u_need_clarification := None;
                     u_clarification_question := None |}).
Proof.
  unfold router_node, extractor_node, last_message.
  split; [|split].
  - destruct (messages st) as [|x l] eqn:E; cbn [rev].
    + split; [reflexivity|]. intros _. eexists. reflexivity.
    + destruct (rev l ++ [x])%list as [|y l'] eqn:E'.
      * now destruct (rev l).
      * rewrite bind_ret. split; [intros [msg H]|]; discriminate.
  - destruct (messages st) as [|x l] eqn:E; cbn [rev].
    + split; [reflexivity|]. intros _. eexists. reflexivity.
    + destruct (rev l ++ [x])%list as [|y l'] eqn:E'.
      * now destruct (rev l).
      * rewrite bind_ret. split; [intros [msg H]|]; discriminate.
  - intros earlier m ->. rewrite rev_app_distr. cbn [rev app].
    rewrite !bind_ret. split; reflexivity.
Qed.

(** ** Branches of the calc node *)

(** With no rejected name, an intent outside the six known ones (or a
    state without intent) makes [calc] answer with the fallback note. *)
Theorem calc_unknown_intent (repo : Repo.t) (py_str : cell -> string)
    (st : AppState) :
  rejected repo st = [] ->
  ~ In (state_intent st) known_intents ->
  calc repo py_str st = ([], inr (answer fallback_result)).
Proof.
  intros Hr Hi. unfold calc. fold (state_slots st). fold (state_intent st).
  rewrite (calc_unfold repo py_str st Hr).
  unfold known_intents in Hi. cbn [In] in Hi.
  repeat match goal with
         | |- context [state_intent st =? ?s] =>
             let E := fresh "E" in
             destruct (state_intent st =? s) eqn:E;
             [apply String.eqb_eq in E; exfalso; apply Hi; rewrite E; tauto|]
         end.
  reflexivity.
Qed.

Lemma calc_unknown_intent_witness :
  calc repo_small show_key (state_of "greeting" (slots_of [] [] None))
  = ([], inr (answer fallback_result)).
Proof.
  apply calc_unknown_intent; [reflexivity|].
  cbn. intuition discriminate.
Defined.

(** For the intent [property_summary] with no rejected name, [calc]
    reports what [property_summary] computes for the first validated name,
    or for the whole portfolio when there is none (or it is empty), under
    the label [Entire Portfolio] in that case. *)
Theorem calc_property_summary (repo : Repo.t) (py_str : cell -> string)
    (st : AppState) :
  rejected repo st = [] ->
  state_intent st = "property_summary" ->
  exists res,
    calc repo py_str st = ([], inr (answer res))
    /\ r_pnl res
       = Some (property_summary repo (selected_property repo st)
                 (s_year (state_slots st)) (s_quarter (state_slots st))
                 (s_month (state_slots st)))
    /\ r_property res
       = Some (Some match selected_property repo st with
                    | Some p => p
                    | None => "Entire Portfolio"
                    end).
Proof.
  intros Hr Hi. unfold calc. fold (state_slots st). fold (state_intent st).
  rewrite (calc_unfold repo py_str st Hr), Hi.
  cbn [String.eqb Ascii.eqb Bool.eqb andb].
  unfold selected_property, property_summary.
  destruct (validated repo st) as [|p rest]; cbn [hd_error].
  - eexists. split; [reflexivity|]. split; reflexivity.
  - destruct (Py.truthy_str p); eexists; (split; [reflexivity|]);
      split; reflexivity.
Qed.

Lemma calc_property_summary_witness :
  exists res,
    calc repo_small show_key
      (state_of "property_summary" (slots_of ["building 180"] [] None))
    = ([], inr (answer res))
    /\ r_pnl res = Some {| revenue := 70; expenses := -20; net := 50 |}.
Proof.
  destruct (calc_property_summary repo_small show_key
              (state_of "property_summary" (slots_of ["building 180"] [] None))
              eq_refl eq_refl) as (res & Hc & Hp & _).
  exists res. split; [exact Hc|]. rewrite Hp. reflexivity.
Defined.

(** For the intent [asset_details] with a validated name and none
    rejected, [calc] reports the figures of [property_summary] for the first
    validated name, the number of its rows in the time frame, at most five
    distinct tenants taken from these rows, and each ledger group of these
    rows once. *)
Theorem calc_asset_details (repo : Repo.t) (py_str : cell -> string)
    (st : AppState) (p : string) (rest : list string) :
  rejected repo st = [] ->
  state_intent st = "asset_details" ->
  validated repo st = p :: rest ->
  exists res tenants groups,
    calc repo py_str st = ([], inr (answer res))
    /\ r_property res = Some (Some p)
    /\ r_pnl res
       = Some (property_summary repo (Some p) (s_year (state_slots st))
                 (s_quarter (state_slots st)) (s_month (state_slots st)))
    /\ r_total_records res = Some (List.length (property_rows repo st p))
    /\ r_tenants res = Some tenants
    /\ (List.length tenants <= 5)%nat
    /\ NoDup tenants
    /\ (forall t, In t tenants ->
                  exists r, In r (property_rows repo st p) /\ tenant_name r = Some t)
    /\ r_ledger_groups res = Some groups
    /\ NoDup groups
    /\ (forall x, In x groups
                  <-> exists r, In r (property_rows repo st p)
                                /\ ledger_group r = Some x).
Proof.
  intros Hr Hi Hv. unfold calc. fold (state_slots st). fold (state_intent st).
  rewrite (calc_unfold repo py_str st Hr), Hi, Hv.
  cbn [String.eqb Ascii.eqb Bool.eqb andb].
  fold (property_rows repo st p).
  do 3 eexists. split; [reflexivity|].
  cbn [answer u_result r_property r_pnl r_total_records r_tenants r_ledger_groups].
  split; [reflexivity|]. split; [reflexivity|]. split; [reflexivity|].
  split; [reflexivity|]. split; [|split; [|split; [|split; [reflexivity|split]]]].
  - rewrite slice_to_nonneg by lia. rewrite length_firstn. lia.
  - rewrite slice_to_nonneg by lia.
    apply NoDup_firstn, (unique_NoDup _ String.eqb String.eqb_eq).
  - intros t Ht. apply slice_to_incl in Ht.
    apply (unique_In _ String.eqb String.eqb_eq), dropna_In, in_map_iff in Ht.
    destruct Ht as (r & H1 & H2). now exists r.
  - apply (unique_NoDup _ String.eqb String.eqb_eq).
  - intros x. rewrite (unique_In _ String.eqb String.eqb_eq), dropna_In, in_map_iff.
    split; intros (r & H1 & H2); exists r; tauto.
Qed.

Lemma calc_asset_details_witness :
  exists res tenants,
    calc repo_small show_key
      (state_of "asset_details" (slots_of ["Building 17"] [] None))
    = ([], inr (answer res))
    /\ r_total_records res = Some 2%nat
    /\ r_tenants res = Some tenants
    /\ (List.length tenants <= 5)%nat.
Proof.
  destruct (calc_asset_details repo_small show_key
              (state_of "asset_details" (slots_of ["Building 17"] [] None))
              "Building 17" [] eq_refl eq_refl eq_refl)
    as (res & tenants & groups & Hc & _ & _ & Hn & Ht & Hl & _).
  exists res, tenants. repeat split; assumption.
Defined.

(** ** What a run leaves in the state *)

Lemma calc_other_shape (repo : Repo.t) (py_str : cell -> string) (st : AppState) :
  rejected repo st = [] ->
  state_intent st <> "compare_properties" ->
  exists u, calc repo py_str st = ([], inr u)
            /\ ((exists q, u = ask q) \/ (exists res, u = answer res)).
Proof.
  unfold rejected, state_intent. intros Hr Hi. unfold calc.
  rewrite calc_props, calc_tenants, validate_spec, Hr.
  apply String.eqb_neq in Hi. rewrite Hi. cbn [andb].
  set (i := match intent st with Some i => i | None => "fallback" end).
  set (v := map (canonical repo) (filter (acceptedb repo) (extracted_properties st))).
  destruct (i =? "asset_details") eqn:E1; cbn [andb].
  - destruct v as [|p v'].
    + eexists; split; [reflexivity|eauto].
    + destruct (i =? "list_properties"); [eexists; split; [reflexivity|eauto]|].
      destruct (i =? "property_summary"); [eexists; split; [reflexivity|eauto]|].
      destruct (i =? "top_expenses"); [eexists; split; [reflexivity|eauto]|].
      eexists; split; [reflexivity|eauto].
  - destruct (i =? "list_properties"); [eexists; split; [reflexivity|eauto]|].
    destruct (i =? "property_summary"); [eexists; split; [reflexivity|eauto]|].
    destruct (i =? "top_expenses"); [eexists; split; [reflexivity|eauto]|].
    destruct (i =? "tenant_summary"); [|eexists; split; [reflexivity|eauto]].
    destruct (extracted_tenants st); eexists; split; try reflexivity; eauto.
Qed.

Lemma calc_returns_shape (repo : Repo.t) (py_str : cell -> string) (st : AppState) :
  exists tr u, calc repo py_str st = (tr, inr u)
               /\ ((exists q, u = ask q) \/ (exists res, u = answer res)).
Proof.
  destruct (rejected repo st) as [|bad rest] eqn:Er.
  - destruct (string_dec (state_intent st) "compare_properties") as [Hi|Hi].
    + destruct (Nat.lt_ge_cases (List.length (validated repo st)) 2) as [Hl|Hl].
      * destruct (calc_compare_short repo py_str st Er Hi Hl) as [q Hq].
        do 2 eexists. split; [exact Hq|eauto].
      * destruct (calc_compare_call repo py_str st Er Hi Hl) as [res Hres].
        do 2 eexists. split; [exact Hres|eauto].
    + destruct (calc_other_shape repo py_str st Er Hi) as (u & Hu & Hshape).
      do 2 eexists. split; [exact Hu|exact Hshape].
  - do 2 eexists. split; [eapply calc_rejected, Er|eauto].
Qed.

Lemma respond_says (fmt_money : Z -> string) (st : AppState) :
  exists text,
    respond fmt_money st
    = ret {| u_messages := [assistant_says text]; u_intent := None;
             u_confidence := None; u_slots := None; u_result := None;
             u_need_clarification := None; u_clarification_question := None |}.
Proof. unfold respond. eexists. reflexivity. Qed.

(** Every run started with at least one message finishes with exactly one
    message appended to the conversation, from the assistant; the intent and
    the slots are those the language models gave for the last message; when
    [calc] asked a question the appended message is that question and the
    earlier result is left as it was; when [calc] answered, the state holds
    its result. *)
Theorem graph_reply (repo : Repo.t) (router_llm : string -> RouterOut)
    (extractor_llm : string -> SlotOut) (py_str : cell -> string)
    (fmt_money : Z -> string) (st : AppState) (fuel : nat) :
  messages st <> [] ->
  (6 <= fuel)%nat ->
  exists last_msg u tr final text,
    last_message st = ret last_msg
    /\ outcome (calc repo py_str
                  (state_at_calc router_llm extractor_llm st last_msg)) = inr u
    /\ invoke fuel (build_graph repo router_llm extractor_llm py_str fmt_money) st
       = (tr, inr (Some final))
    /\ messages final = (messages st ++ [assistant_says text])%list
    /\ intent final = Some (ro_intent (router_llm (content last_msg)))
    /\ slots final = Some (model_dump (extractor_llm (content last_msg)))
    /\ (forall q, u = ask q ->
                  text = q /\ result final = result st
                  /\ need_clarification final = Some true)
    /\ (forall res, u = answer res ->
                    result final = Some res
                    /\ need_clarification final = Some false).
Proof.
  intros Hm Hfuel.
  destruct (last_message_some st Hm) as (m & Hlast & _).
  do 6 (destruct fuel as [|fuel]; [lia|]).
  set (g := build_graph repo router_llm extractor_llm py_str fmt_money).
  set (st2 := state_at_calc router_llm extractor_llm st m).
  destruct (calc_returns_shape repo py_str st2) as (trc & u & Hu & Hshape).
  assert (Hstart : invoke (S (S (S (S (S (S fuel)))))) g st
                   = ((Enter_node "router" :: Enter_node "extractor"
                         :: trace (run (S (S (S fuel))) g "calc" st2))%list,
                      outcome (run (S (S (S fuel))) g "calc" st2))).
  { unfold invoke, g. rewrite run_from_start.
    now rewrite (run_to_calc repo router_llm extractor_llm py_str fmt_money
                   _ st m Hlast). }
  destruct Hshape as [[q ->]|[res ->]].
  - assert (Hcalc : run (S (S (S fuel))) g "calc" st2
                    = ((Enter_node "calc" :: trc
                          ++ trace (run (S (S fuel)) g "clarify"
                                      (apply_update st2 (ask q))))%list,
                       outcome (run (S (S fuel)) g "clarify"
                                  (apply_update st2 (ask q))))).
    { apply (run_node _ g "calc" st2 (calc repo py_str) trc (ask q) "clarify");
        try reflexivity. exact Hu. }
    subst g.
    rewrite (run_last_node repo router_llm extractor_llm py_str fmt_money fuel
               "clarify" (apply_update st2 (ask q)) clarify
               {| u_messages := [assistant_says q]; u_intent := None;
                  u_confidence := None; u_slots := None; u_result := None;
                  u_need_clarification := None;
                  u_clarification_question := None |})
      in Hcalc; [|now left|reflexivity|reflexivity].
    rewrite Hcalc in Hstart. cbn [trace outcome fst snd] in Hstart.
    exists m, (ask q). do 2 eexists. exists q.
    split; [exact Hlast|]. split; [fold st2; now rewrite Hu|].
    split; [exact Hstart|].
    cbn. rewrite !app_nil_r.
    split; [reflexivity|]. split; [reflexivity|]. split; [reflexivity|]. split.
    + intros q0 H. unfold ask in H. injection H as <-. repeat split.
    + intros res H. unfold ask, answer in H. discriminate H.
  - destruct (respond_says fmt_money (apply_update st2 (answer res)))
      as (text & Htext).
    assert (Hcalc : run (S (S (S fuel))) g "calc" st2
                    = ((Enter_node "calc" :: trc
                          ++ trace (run (S (S fuel)) g "respond"
                                      (apply_update st2 (answer res))))%list,
                       outcome (run (S (S fuel)) g "respond"
                                  (apply_update st2 (answer res))))).
    { apply (run_node _ g "calc" st2 (calc repo py_str) trc (answer res) "respond");
        try reflexivity. exact Hu. }
    subst g.
    rewrite (run_last_node repo router_llm extractor_llm py_str fmt_money fuel
               "respond" (apply_update st2 (answer res)) (respond fmt_money)
               _ (or_intror eq_refl) eq_refl Htext)
      in Hcalc.
    rewrite Hcalc in Hstart. cbn [trace outcome fst snd] in Hstart.
    exists m, (answer res). do 2 eexists. exists text.
    split; [exact Hlast|]. split; [fold st2; now rewrite Hu|].
    split; [exact Hstart|].
    cbn. rewrite !app_nil_r.
    split; [reflexivity|]. split; [reflexivity|]. split; [reflexivity|]. split.
    + intros q0 H. unfold ask, answer in H. discriminate H.
    + intros res0 H. unfold answer in H. injection H as <-. repeat split.
Qed.

Lemma graph_reply_witness :
  exists tr final text,
    invoke 6 (graph_small "tenant_summary" [])
      (initial_state [ {| role := "user"; content := "How is my tenant doing?" |} ])
    = (tr, inr (Some final))
    /\ messages final
       = [ {| role := "user"; content := "How is my tenant doing?" |};
           assistant_says text ].
Proof.
  assert (H1 : messages (initial_state
                 [ {| role := "user"; content := "How is my tenant doing?" |} ]) <> [])
    by discriminate.
  assert (H2 : (6 <= 6)%nat) by lia.
  destruct (graph_reply repo_small (llm_route "tenant_summary") (llm_slots [])
              show_key show_amount _ 6 H1 H2)
    as (m & u & tr & final & text & _ & _ & Hi & Hmsg & _).
  exists tr, final, text. split; [exact Hi|exact Hmsg].
Defined.

(** ** The reply to a top-expenses question *)

Lemma top_expenses_column (py_str : cell -> string) (repo : Repo.t)
    (name : option string) (year_ : option Z) (quarter_ month_ : option string)
    (group_by : string) (top_n : option Z) :
  Forall (fun x => ee_column x = group_by)
         (top_expenses py_str repo name year_ quarter_ month_ group_by top_n).
Proof.
  unfold top_expenses. destruct (negb (Py.mem group_by columns)); [constructor|].
  apply Forall_forall. intros x Hx. apply in_map_iff in Hx.
  destruct Hx as (kv & <- & _). reflexivity.
Qed.

(** [respond] labels an expense line with its group key only when the
    grouping column is [ledger_group]: for entries that [top_expenses]
    grouped by any other column, every line of the reply is labelled
    [N/A]. *)
Theorem respond_labels_only_ledger_group (fmt_money : Z -> string)
    (py_str : cell -> string) (repo : Repo.t) (name : option string)
    (year_ : option Z) (quarter_ month_ : option string) (group_by : string)
    (top_n : option Z) (st : AppState) (res : Result) :
  group_by <> "ledger_group" ->
  state_intent st = "top_expenses" ->
  result st = Some res ->
  r_top_expenses res
  = Some (top_expenses py_str repo name year_ quarter_ month_ group_by top_n) ->
  outcome (respond fmt_money st)
  = inr {| u_messages :=
             [assistant_says
                ("Top expenses for " ++ property_or res "your portfolio" ++ ": "
                 ++ Py.join ", "
                      (map (unlabelled_line fmt_money)
                           (top_expenses py_str repo name year_ quarter_ month_
                              group_by top_n))
                 ++ ".")];
           u_intent := None; u_confidence := None; u_slots := None;
           u_result := None; u_need_clarification := None;
           u_clarification_question := None |}.
Proof.
  intros Hg Hi Hres Hitems. unfold respond. fold (state_intent st).
  rewrite Hi, Hres, Hitems. cbn [String.eqb Ascii.eqb Bool.eqb].
  cbn [outcome ret snd]. do 3 f_equal. unfold assistant_says. f_equal.
  do 3 f_equal. f_equal. f_equal.
  apply map_ext_in. intros x Hx.
  pose proof (top_expenses_column py_str repo name year_ quarter_ month_
                group_by top_n) as Hcol.
  rewrite Forall_forall in Hcol. rewrite (Hcol x Hx).
  apply String.eqb_neq in Hg. rewrite Hg. reflexivity.
Qed.

Lemma respond_labels_only_ledger_group_witness :
  outcome (respond show_amount state_by_tenant)
  = inr {| u_messages :=
             [assistant_says "Top expenses for Building 17: N/A: $0.00."];
           u_intent := None; u_confidence := None; u_slots := None;
           u_result := None; u_need_clarification := None;
           u_clarification_question := None |}.
Proof.
  apply (respond_labels_only_ledger_group show_amount show_key repo_small
           (Some "Building 17") None None None "tenant_name" (Some 8)
           state_by_tenant result_by_tenant);
    [discriminate|reflexivity|reflexivity|reflexivity].
Defined.

(** For the intent [top_expenses] with no property named, [calc] stores
    the key [property] with the value [None], so the reply of [respond]
    starts with [Top expenses for None] and the default text
    [your portfolio] is not used. *)
Theorem top_expenses_reply_without_property (repo : Repo.t)
    (py_str : cell -> string) (fmt_money : Z -> string) (st : AppState) :
  rejected repo st = [] ->
  state_intent st = "top_expenses" ->
  validated repo st = [] ->
  exists res rest,
    calc repo py_str st = ([], inr (answer res))
    /\ r_property res = Some None
    /\ outcome (respond fmt_money (apply_update st (answer res)))
       = inr {| u_messages := [assistant_says ("Top expenses for None: " ++ rest)];
                u_intent := None; u_confidence := None; u_slots := None;
                u_result := None; u_need_clarification := None;
                u_clarification_question := None |}.
Proof.
  intros Hr Hi Hv. unfold calc. fold (state_slots st). fold (state_intent st).
  rewrite (calc_unfold repo py_str st Hr), Hi, Hv.
  cbn [String.eqb Ascii.eqb Bool.eqb andb hd_error].
  do 2 eexists. split; [reflexivity|]. split; [reflexivity|].
  unfold respond, apply_update, answer, override.
  cbn [intent result u_intent u_result].
  fold (state_intent st). rewrite Hi.
  cbn [String.eqb Ascii.eqb Bool.eqb].
  unfold property_or, fmt_opt. cbn [r_property r_top_expenses].
  cbn [outcome ret snd String.append]. reflexivity.
Qed.

Lemma top_expenses_reply_without_property_witness :
  exists res rest,
    calc repo_small show_key (state_of "top_expenses" (slots_of [] [] (Some 1)))
    = ([], inr (answer res))
    /\ r_property res = Some None
    /\ outcome (respond show_amount
                  (apply_update (state_of "top_expenses" (slots_of [] [] (Some 1)))
                     (answer res)))
       = inr {| u_messages := [assistant_says ("Top expenses for None: " ++ rest)];
                u_intent := None; u_confidence := None; u_slots := None;
                u_result := None; u_need_clarification := None;
                u_clarification_question := None |}.
Proof.
  apply (top_expenses_reply_without_property repo_small show_key show_amount);
    reflexivity.
Defined.

(** For the intent [compare_properties] with no rejected name and at
    least two validated ones, [calc] answers with one comparison entry per
    validated name, in order, each with the figures of [property_summary]
    for the time frame of the slots. *)
Theorem calc_compare_result (repo : Repo.t) (py_str : cell -> string)
    (st : AppState) :
  rejected repo st = [] ->
  state_intent st = "compare_properties" ->
  (2 <= List.length (validated repo st))%nat ->
  exists res c,
    outcome (calc repo py_str st) = inr (answer res)
    /\ r_comparison res = Some c
    /\ map ce_property (cmp_properties c) = validated repo st
    /\ cmp_count c = List.length (validated repo st)
    /\ map entry_pnl (cmp_properties c)
       = map (fun p => property_summary repo (Some p) (s_year (state_slots st))
                         (s_quarter (state_slots st)) (s_month (state_slots st)))
             (validated repo st).
Proof.
  intros Hr Hi Hl. unfold calc. fold (state_slots st). fold (state_intent st).
  rewrite (calc_unfold repo py_str st Hr), Hi.
  assert (E : (List.length (validated repo st) <? 2)%nat = false)
    by (apply Nat.ltb_ge; lia).
  rewrite E. cbn [String.eqb Ascii.eqb Bool.eqb andb].
  unfold compare_properties. rewrite E.
  do 2 eexists. split; [reflexivity|]. split; [reflexivity|].
  cbn [cmp_properties cmp_count]. rewrite !map_map, length_map. cbn [ce_property].
  split; [apply map_id|]. split; [reflexivity|].
  apply map_ext. intros p. unfold entry_pnl.
  cbn [ce_revenue ce_expenses ce_net].
  now destruct (property_summary repo (Some p) _ _ _).
Qed.

Lemma calc_compare_result_witness :
  exists res c,
    outcome (calc repo_small show_key
               (state_of "compare_properties"
                  (slots_of ["building 17"; "Building 180"] [] None)))
    = inr (answer res)
    /\ r_comparison res = Some c
    /\ map ce_property (cmp_properties c) = ["Building 17"; "Building 180"].
Proof.
  destruct (calc_compare_result repo_small show_key
              (state_of "compare_properties"
                 (slots_of ["building 17"; "Building 180"] [] None))
              eq_refl eq_refl (le_n 2))
    as (res & c & H1 & H2 & H3 & _).
  exists res, c. repeat split; assumption.
Defined.
